(** * Three-wheeler shop: inventory, sales and report engine of [app.js]

    The program keeps two collections in the browser's [localStorage], each
    as one JSON text: the wheels (vehicles) under ['threeWheel_items'] and
    the sales under ['threeWheel_sales'].  Every handler reads a whole
    collection, works on it in memory and writes the whole collection back.

    What the model covers.
    - [localStorage] is a finite map from keys to texts.
    - [JSON.parse], [JSON.stringify] and the arithmetic of JavaScript
      numbers belong to the platform, not to the program: they are the
      operations of two interfaces ([JsNumber], [JsonText]) and every
      theorem holds for all their implementations.
    - Handlers run in a small monad with the storage, the dialogs shown
      ([alert], [confirm]) and exceptions.  The answers of the user to
      [confirm] and the values read from the form, the clock and the id
      generator are arguments of the handlers.
    - The handlers that look inside the records ([wheel.id],
      [sale.saleDate >= fromDate], ...) are modelled on arrays of records of
      the shape given in the header comment of [app.js]; on any other stored
      value they stop with [OutsideModel].
    - The page is not modelled: of the [render*] calls at the end of a
      handler only the loading of the two collections is kept ([refresh]);
      [renderReport] is modelled on its own, with the values of its two
      date inputs as arguments.  The elements the handlers look up in the
      page are assumed to be there, and the storage to accept every write.
    - Strings are sequences of bytes.  Their order, by character code, is
      the order of JavaScript on the texts the program compares, the dates
      of the form [YYYY-MM-DD]. *)

From Stdlib Require Import ZArith Ascii.
From stdpp Require Import base option list strings gmap.

Open Scope string_scope.

(** ** JavaScript numbers *)

(** The operations [app.js] applies to numbers.  [nle], [nlt] are [<=], [<]
    (false when an operand is NaN), [ntruthy] is the conversion to a boolean
    in a condition (false on 0 and NaN). *)
Class JsNumber (num : Type) := {
  nconst : Z → num;
  nadd : num → num → num;
  nsub : num → num → num;
  nle : num → num → bool;
  nlt : num → num → bool;
  isNaN : num → bool;
  ntruthy : num → bool
}.

(** ** JSON values *)

Section Json.
Context {num : Type}.

#[warnings="-register-all"]
Inductive json : Type :=
| JNull
| JBool (b : bool)
| JNum (n : num)
| JStr (s : string)
| JArr (elems : list json)
| JObj (props : list (string * json)).

(** [v.key]: [None] is [undefined].  Reading a property of [null] throws,
    see [get_prop] below; of the other values only objects have the
    properties read by the program. *)
Fixpoint lookup_prop (key : string) (props : list (string * json)) : option json :=
  match props with
  | [] => None
  | (k, v) :: rest => if String.eqb k key then Some v else lookup_prop key rest
  end.

(** [Array.isArray(v)] *)
Definition isArray (v : json) : bool :=
  match v with JArr _ => true | _ => false end.

End Json.
Arguments json : clear implicits.

(** ** The platform's JSON text functions *)

(** [JSON_parse text] is [None] when [JSON.parse] throws a [SyntaxError].
    [JSON_stringify_indent v] is [JSON.stringify(v, null, 2)]. *)
Class JsonText (num : Type) := {
  JSON_parse : string → option (json num);
  JSON_stringify : json num → string;
  JSON_stringify_indent : json num → string
}.

(** ** Effects: storage, dialogs, exceptions *)

Inductive exn : Type :=
| SyntaxError
| TypeError
| OutsideModel.

Inductive result (A : Type) : Type :=
| Ok (a : A)
| Throw (e : exn).
Arguments Ok {A} a.
Arguments Throw {A} e.

Inductive dialog : Type :=
| Alert (message : string)
| Confirm (message : string) (answer : bool).

(** The part of the browser the handlers act on.  [dialogs] is the log of
    the dialogs shown so far, oldest first. *)
Record world : Type := World {
  localStorage : gmap string string;
  editingWheelId : option string;
  dialogs : list dialog
}.

Definition M (A : Type) : Type := world → world * result A.

#[global] Instance M_ret : MRet M := λ A a w, (w, Ok a).

#[global] Instance M_bind : MBind M := λ A B k m w,
  match m w with
  | (w', Ok a) => k a w'
  | (w', Throw e) => (w', Throw e)
  end.

Definition throw {A} (e : exn) : M A := λ w, (w, Throw e).

(** [try { body } catch (error) { handler }]: whatever [body] throws is
    handed to [handler]; what [body] has done until then stays done. *)
Definition try_catch {A} (body : M A) (handler : exn → M A) : M A :=
  λ w, match body w with
       | (w', Ok a) => (w', Ok a)
       | (w', Throw e) => handler e w'
       end.

Definition getItem (key : string) : M (option string) :=
  λ w, (w, Ok (localStorage w !! key)).

Definition setItem (key value : string) : M unit :=
  λ w, (World (<[key := value]> (localStorage w)) (editingWheelId w) (dialogs w), Ok tt).

Definition showAlert (message : string) : M unit :=
  λ w, (World (localStorage w) (editingWheelId w) (dialogs w ++ [Alert message]), Ok tt).

(** [confirmAction(message)], answered with [answer]. *)
Definition confirmAction (message : string) (answer : bool) : M bool :=
  λ w, (World (localStorage w) (editingWheelId w) (dialogs w ++ [Confirm message answer]),
        Ok answer).

Definition set_editingWheelId (v : option string) : M unit :=
  λ w, (World (localStorage w) v (dialogs w), Ok tt).

Definition get_editingWheelId : M (option string) :=
  λ w, (w, Ok (editingWheelId w)).

(** A text in a condition: the empty string is false. *)
Definition nonempty (s : string) : bool := negb (String.eqb s "").

(** ** Records *)

Section Records.
Context {num : Type}.

(** A wheel object: [{id, model, year, vehicleNumber, color, chassisNumber,
    engineNumber, notes, purchasePrice, addedDate}]. *)
Record Wheel : Type := {
  wheel_id : string;
  wheel_model : string;
  wheel_year : num;
  wheel_vehicleNumber : string;
  wheel_color : string;
  wheel_chassisNumber : string;
  wheel_engineNumber : string;
  wheel_notes : string;
  wheel_purchasePrice : num;
  wheel_addedDate : string
}.

(** A sale object: [{id, wheelId, saleDate, sellingPrice, paymentMethod,
    buyerName, buyerAddress, buyerNIC, buyerPhone, saleNotes}]. *)
Record Sale : Type := {
  sale_id : string;
  sale_wheelId : string;
  sale_saleDate : string;
  sale_sellingPrice : num;
  sale_paymentMethod : string;
  sale_buyerName : string;
  sale_buyerAddress : string;
  sale_buyerNIC : string;
  sale_buyerPhone : string;
  sale_saleNotes : string
}.

(** The object literals of [handleWheelSubmit] and [handleSaleSubmit], with
    the properties in the order they are written there. *)
Definition wheel_keys : list string :=
  ["id"; "model"; "year"; "vehicleNumber"; "color"; "chassisNumber";
   "engineNumber"; "notes"; "purchasePrice"; "addedDate"].

Definition sale_keys : list string :=
  ["id"; "wheelId"; "saleDate"; "sellingPrice"; "paymentMethod"; "buyerName";
   "buyerAddress"; "buyerNIC"; "buyerPhone"; "saleNotes"].

Definition wheel_json (w : Wheel) : json num :=
  JObj (zip wheel_keys
    [JStr (wheel_id w); JStr (wheel_model w); JNum (wheel_year w);
     JStr (wheel_vehicleNumber w); JStr (wheel_color w);
     JStr (wheel_chassisNumber w); JStr (wheel_engineNumber w);
     JStr (wheel_notes w); JNum (wheel_purchasePrice w);
     JStr (wheel_addedDate w)]).

Definition sale_json (s : Sale) : json num :=
  JObj (zip sale_keys
    [JStr (sale_id s); JStr (sale_wheelId s); JStr (sale_saleDate s);
     JNum (sale_sellingPrice s); JStr (sale_paymentMethod s);
     JStr (sale_buyerName s); JStr (sale_buyerAddress s);
     JStr (sale_buyerNIC s); JStr (sale_buyerPhone s);
     JStr (sale_saleNotes s)]).

Definition wheels_json (ws : list Wheel) : json num := JArr (map wheel_json ws).
Definition sales_json (ss : list Sale) : json num := JArr (map sale_json ss).

(** Reading a JSON value as a record of the documented shape. *)
Definition wheel_of_json (v : json num) : option Wheel :=
  match v with
  | JObj props =>
      match props.*2 with
      | [JStr a1; JStr a2; JNum a3; JStr a4; JStr a5; JStr a6; JStr a7;
         JStr a8; JNum a9; JStr a10] =>
          if bool_decide (props.*1 = wheel_keys)
          then Some (Build_Wheel a1 a2 a3 a4 a5 a6 a7 a8 a9 a10)
          else None
      | _ => None
      end
  | _ => None
  end.

Definition sale_of_json (v : json num) : option Sale :=
  match v with
  | JObj props =>
      match props.*2 with
      | [JStr a1; JStr a2; JStr a3; JNum a4; JStr a5; JStr a6; JStr a7;
         JStr a8; JStr a9; JStr a10] =>
          if bool_decide (props.*1 = sale_keys)
          then Some (Build_Sale a1 a2 a3 a4 a5 a6 a7 a8 a9 a10)
          else None
      | _ => None
      end
  | _ => None
  end.

Definition as_wheels (v : json num) : option (list Wheel) :=
  match v with JArr elems => mapM wheel_of_json elems | _ => None end.

Definition as_sales (v : json num) : option (list Sale) :=
  match v with JArr elems => mapM sale_of_json elems | _ => None end.

End Records.
Arguments Wheel : clear implicits.
Arguments Sale : clear implicits.

(** ** The program *)

Section App.
Context {num : Type} `{!JsNumber num, !JsonText num}.

(** A JSON value in a condition. *)
Definition truthy (v : json num) : bool :=
  match v with
  | JNull => false
  | JBool b => b
  | JNum n => ntruthy n
  | JStr s => nonempty s
  | JArr _ | JObj _ => true
  end.

(** [v.key]; [None] is [undefined], which is false in a condition. *)
Definition get_prop (v : json num) (key : string) : M (option (json num)) :=
  match v with
  | JNull => throw TypeError
  | JObj props => mret (lookup_prop key props)
  | _ => mret None
  end.

(** *** Storage functions *)

Definition parse (text : string) : M (json num) :=
  match JSON_parse text with
  | Some v => mret v
  | None => throw SyntaxError
  end.

(** [return data ? JSON.parse(data) : [];] *)
Definition load (key : string) : M (json num) :=
  data ← getItem key;
  match data with
  | Some text => if nonempty text then parse text else mret (JArr [])
  | None => mret (JArr [])
  end.

Definition loadWheels : M (json num) := load "threeWheel_items".

Definition saveWheels (wheels : json num) : M unit :=
  setItem "threeWheel_items" (JSON_stringify wheels).

Definition loadSales : M (json num) := load "threeWheel_sales".

Definition saveSales (sales : json num) : M unit :=
  setItem "threeWheel_sales" (JSON_stringify sales).

(** The records of a loaded collection, where the handlers start to use its
    elements. *)
Definition wheel_records (v : json num) : M (list (Wheel num)) :=
  match as_wheels v with
  | Some ws => mret ws
  | None => throw OutsideModel
  end.

Definition sale_records (v : json num) : M (list (Sale num)) :=
  match as_sales v with
  | Some ss => mret ss
  | None => throw OutsideModel
  end.

(** The calls that draw the page again after a change: [renderWheels()],
    [renderSales()], [updateWheelSelect()], [renderReport()].  Each of them
    loads the two collections and reads their records; what it writes is
    the page. *)
Definition refresh : M unit :=
  wheels ← loadWheels;
  sales ← loadSales;
  ss ← sale_records sales;
  ws ← wheel_records wheels;
  mret tt.

(** *** Wheel management *)

Definition resetWheelForm : M unit := set_editingWheelId None.

(** [deleteWheel(wheelId)]; [sure] and [cascade] are the user's answers to
    the first and to the second [confirm], if they are asked. *)
Definition deleteWheel (wheelId : string) (sure cascade : bool) : M unit :=
  ok ← confirmAction
    "Are you sure you want to delete this wheel? This action cannot be undone." sure;
  if negb ok then mret tt else
  wheels ← loadWheels;
  sales ← loadSales;
  let remove_wheel : M unit :=
    ws ← wheel_records wheels;
    let filteredWheels := List.filter (λ w, negb (String.eqb (wheel_id w) wheelId)) ws in
    saveWheels (wheels_json filteredWheels);;
    refresh;;
    showAlert "Wheel deleted successfully" in
  ss ← sale_records sales;
  let hasSale := existsb (λ sale, String.eqb (sale_wheelId sale) wheelId) ss in
  if hasSale then
    ok2 ← confirmAction
      "This wheel has been sold. Deleting it will also remove the sale record. Continue?"
      cascade;
    if negb ok2 then mret tt else
    let filteredSales := List.filter (λ sale, negb (String.eqb (sale_wheelId sale) wheelId)) ss in
    saveSales (sales_json filteredSales);;
    remove_wheel
  else remove_wheel.

(** The values [handleWheelSubmit] reads from the form, after [trim],
    [parseInt] and [parseFloat]. *)
Record WheelForm : Type := {
  wf_wheelId : string;
  wf_model : string;
  wf_year : num;
  wf_vehicleNumber : string;
  wf_color : string;
  wf_chassisNumber : string;
  wf_engineNumber : string;
  wf_purchasePrice : num;
  wf_notes : string
}.

(** [handleWheelSubmit(e)]; [newId] is the result of [generateId('wheel')]
    and [today] of [getTodayDate()], used when a wheel is added. *)
Definition handleWheelSubmit (f : WheelForm) (newId today : string) : M unit :=
  if negb (nonempty (wf_model f)) then showAlert "Model is required" else
  if isNaN (wf_year f) || nlt (wf_year f) (nconst 1900) || nlt (nconst 2100) (wf_year f)
  then showAlert "Please enter a valid year" else
  if negb (nonempty (wf_vehicleNumber f)) then showAlert "Vehicle Number is required" else
  if negb (nonempty (wf_color f)) then showAlert "Color is required" else
  if negb (nonempty (wf_chassisNumber f)) then showAlert "Chassis Number is required" else
  if negb (nonempty (wf_engineNumber f)) then showAlert "Engine Number is required" else
  if isNaN (wf_purchasePrice f) || nle (wf_purchasePrice f) (nconst 0)
  then showAlert "Purchase price must be greater than 0" else
  wheels ← loadWheels;
  editing ← get_editingWheelId;
  (if nonempty (wf_wheelId f) && from_option nonempty false editing then
     ws ← wheel_records wheels;
     match list_find (λ w, wheel_id w = wf_wheelId f) ws with
     | Some (index, old) =>
         let updated :=
           {| wheel_id := wheel_id old;
              wheel_model := wf_model f;
              wheel_year := wf_year f;
              wheel_vehicleNumber := wf_vehicleNumber f;
              wheel_color := wf_color f;
              wheel_chassisNumber := wf_chassisNumber f;
              wheel_engineNumber := wf_engineNumber f;
              wheel_notes := wf_notes f;
              wheel_purchasePrice := wf_purchasePrice f;
              wheel_addedDate := wheel_addedDate old |} in
         saveWheels (wheels_json (<[index := updated]> ws));;
         showAlert "Wheel updated successfully"
     | None => mret tt
     end
   else
     ws ← wheel_records wheels;
     let newWheel :=
       {| wheel_id := newId;
          wheel_model := wf_model f;
          wheel_year := wf_year f;
          wheel_vehicleNumber := wf_vehicleNumber f;
          wheel_color := wf_color f;
          wheel_chassisNumber := wf_chassisNumber f;
          wheel_engineNumber := wf_engineNumber f;
          wheel_notes := wf_notes f;
          wheel_purchasePrice := wf_purchasePrice f;
          wheel_addedDate := today |} in
     saveWheels (wheels_json (ws ++ [newWheel]));;
     showAlert "Wheel added successfully");;
  resetWheelForm;;
  refresh.

(** *** Sales management *)

(** The values [handleSaleSubmit] reads from the form. *)
Record SaleForm : Type := {
  sf_wheelId : string;
  sf_sellingPrice : num;
  sf_paymentMethod : string;
  sf_buyerName : string;
  sf_buyerAddress : string;
  sf_buyerNIC : string;
  sf_buyerPhone : string;
  sf_saleDate : string;
  sf_saleNotes : string
}.

(** [handleSaleSubmit(e)]; [newId] is the result of [generateId('sale')]. *)
Definition handleSaleSubmit (f : SaleForm) (newId : string) : M unit :=
  if negb (nonempty (sf_wheelId f)) then showAlert "Please select a wheel" else
  if isNaN (sf_sellingPrice f) || nle (sf_sellingPrice f) (nconst 0)
  then showAlert "Selling price must be greater than 0" else
  if negb (nonempty (sf_paymentMethod f)) then showAlert "Payment method is required" else
  if negb (nonempty (sf_buyerName f)) then showAlert "Buyer name is required" else
  if negb (nonempty (sf_buyerAddress f)) then showAlert "Buyer address is required" else
  if negb (nonempty (sf_buyerNIC f)) then showAlert "Buyer NIC number is required" else
  if negb (nonempty (sf_buyerPhone f)) then showAlert "Buyer phone number is required" else
  if negb (nonempty (sf_saleDate f)) then showAlert "Sale date is required" else
  sales ← loadSales;
  ss ← sale_records sales;
  let alreadySold := existsb (λ sale, String.eqb (sale_wheelId sale) (sf_wheelId f)) ss in
  if alreadySold then showAlert "This wheel has already been sold" else
  let newSale :=
    {| sale_id := newId;
       sale_wheelId := sf_wheelId f;
       sale_saleDate := sf_saleDate f;
       sale_sellingPrice := sf_sellingPrice f;
       sale_paymentMethod := sf_paymentMethod f;
       sale_buyerName := sf_buyerName f;
       sale_buyerAddress := sf_buyerAddress f;
       sale_buyerNIC := sf_buyerNIC f;
       sale_buyerPhone := sf_buyerPhone f;
       sale_saleNotes := sf_saleNotes f |} in
  saveSales (sales_json (ss ++ [newSale]));;
  setItem "threeWheel_currentSale" (JSON_stringify (sale_json newSale));;
  showAlert "Sale recorded successfully";;
  refresh.

(** *** Reports *)

(** An element of [currentReportData]:
    [{...sale, wheel, model, purchasePrice, profit}]. *)
Record ReportRow : Type := {
  row_sale : Sale num;
  row_wheel : option (Wheel num);
  row_model : string;
  row_purchasePrice : num;
  row_profit : num
}.

(** The summary totals of the table footer. *)
Record Summary : Type := {
  count : nat;
  totalRevenue : num;
  totalCost : num;
  totalProfit : num
}.

(** The callback of [filteredSales.map] in [renderReport]. *)
Definition enrich (wheels : list (Wheel num)) (sale : Sale num) : ReportRow :=
  let wheel := List.find (λ w, String.eqb (wheel_id w) (sale_wheelId sale)) wheels in
  {| row_sale := sale;
     row_wheel := wheel;
     row_model := match wheel with Some w => wheel_model w | None => "Unknown" end;
     row_purchasePrice :=
       match wheel with Some w => wheel_purchasePrice w | None => nconst 0 end;
     row_profit :=
       match wheel with
       | Some w => nsub (sale_sellingPrice sale) (wheel_purchasePrice w)
       | None => sale_sellingPrice sale
       end |}.

(** [renderReport()], with the values of the two date inputs.  The result
    is the new [currentReportData] and the summary totals; there are no
    totals when the table is empty, where the function returns before
    computing them.  Comparison of strings is by character code. *)
Definition renderReport (fromDate toDate : string)
  : M (list ReportRow * option Summary) :=
  sales ← loadSales;
  wheels ← loadWheels;
  ss ← sale_records sales;
  ws ← wheel_records wheels;
  let filteredSales := ss in
  let filteredSales :=
    if nonempty fromDate
    then List.filter (λ sale, String.leb fromDate (sale_saleDate sale)) filteredSales
    else filteredSales in
  let filteredSales :=
    if nonempty toDate
    then List.filter (λ sale, String.leb (sale_saleDate sale) toDate) filteredSales
    else filteredSales in
  let currentReportData := map (enrich ws) filteredSales in
  if Nat.eqb (length currentReportData) 0 then mret (currentReportData, None) else
  let count := length currentReportData in
  let totalRevenue :=
    fold_left (λ sum item, nadd sum (sale_sellingPrice (row_sale item)))
      currentReportData (nconst 0) in
  let totalCost :=
    fold_left (λ sum item, nadd sum (row_purchasePrice item))
      currentReportData (nconst 0) in
  let totalProfit := nsub totalRevenue totalCost in
  mret (currentReportData,
        Some {| count := count; totalRevenue := totalRevenue;
                totalCost := totalCost; totalProfit := totalProfit |}).

(** *** Backup and restore *)

(** [exportToJSON()]; [now] is [new Date().toISOString()].  The result is
    the text of the downloaded file. *)
Definition exportToJSON (now : string) : M string :=
  wheels ← loadWheels;
  sales ← loadSales;
  let data := JObj [("wheels", wheels); ("sales", sales); ("exportDate", JStr now)] in
  let jsonString := JSON_stringify_indent data in
  showAlert "Data exported to JSON successfully";;
  mret jsonString.

(** [handleFileImport(e)] with the [onload] callback of its reader; [file]
    is the text of the chosen file, if one was chosen, and [sure] the
    user's answer to the [confirm].  The page is drawn again inside the
    [try]: when that throws, the error alert follows the success alert and
    the collections stay as they were written.  For imported lists that
    are not lists of records the drawing is taken to throw; the program
    draws some of them (a record with one more property, for one), so
    after such an import the storage and the result are those of the
    program, and the dialogs are outside the model. *)
Definition handleFileImport (file : option string) (sure : bool) : M unit :=
  match file with
  | None => mret tt
  | Some text =>
      try_catch
        (data ← parse text;
         ok ← confirmAction "This will replace all current data. Are you sure?" sure;
         if negb ok then mret tt else
         wheels ← get_prop data "wheels";
         match wheels with
         | Some v => if truthy v && isArray v then saveWheels v else mret tt
         | None => mret tt
         end;;
         sales ← get_prop data "sales";
         match sales with
         | Some v => if truthy v && isArray v then saveSales v else mret tt
         | None => mret tt
         end;;
         showAlert "Data imported successfully";;
         refresh)
        (λ error, showAlert "Error importing file. Please check the file format.")
  end.

End App.

(** ** The persisted collections *)

Section Persisted.
Context {num : Type} `{!JsNumber num, !JsonText num}.

(** What [load key] returns in [w]. *)
Definition stored (key : string) (w : world) : result (json num) := (load key w).2.

(** The wheel collection of [w] is the list [ws]; the sale collection is [ss]. *)
Definition has_wheels (w : world) (ws : list (Wheel num)) : Prop :=
  stored "threeWheel_items" w = Ok (wheels_json ws).

Definition has_sales (w : world) (ss : list (Sale num)) : Prop :=
  stored "threeWheel_sales" w = Ok (sales_json ss).

(** A value that is read back as it was saved. *)
Definition persists (v : json num) : Prop :=
  nonempty (JSON_stringify v) = true ∧ JSON_parse (JSON_stringify v) = Some v.

(** At most one sale for a wheel. *)
Definition one_sale_per_wheel (ss : list (Sale num)) : Prop :=
  NoDup (map sale_wheelId ss).

(** [w] after one more dialog. *)
Definition shown (d : dialog) (w : world) : world :=
  World (localStorage w) (editingWheelId w) (dialogs w ++ [d]).

(** The checks of [handleSaleSubmit] on the values of the form. *)
Definition sale_form_valid (f : SaleForm) : bool :=
  nonempty (sf_wheelId f)
  && negb (isNaN (sf_sellingPrice f) || nle (sf_sellingPrice f) (nconst 0))
  && nonempty (sf_paymentMethod f) && nonempty (sf_buyerName f)
  && nonempty (sf_buyerAddress f) && nonempty (sf_buyerNIC f)
  && nonempty (sf_buyerPhone f) && nonempty (sf_saleDate f).

(** The sale [handleSaleSubmit] builds from the form. *)
Definition sale_of_form (f : SaleForm) (newId : string) : Sale num :=
  {| sale_id := newId;
     sale_wheelId := sf_wheelId f;
     sale_saleDate := sf_saleDate f;
     sale_sellingPrice := sf_sellingPrice f;
     sale_paymentMethod := sf_paymentMethod f;
     sale_buyerName := sf_buyerName f;
     sale_buyerAddress := sf_buyerAddress f;
     sale_buyerNIC := sf_buyerNIC f;
     sale_buyerPhone := sf_buyerPhone f;
     sale_saleNotes := sf_saleNotes f |}.

(** The checks of [handleWheelSubmit] on the values of the form. *)
Definition wheel_form_valid (f : WheelForm) : bool :=
  nonempty (wf_model f)
  && negb (isNaN (wf_year f) || nlt (wf_year f) (nconst 1900)
           || nlt (nconst 2100) (wf_year f))
  && nonempty (wf_vehicleNumber f) && nonempty (wf_color f)
  && nonempty (wf_chassisNumber f) && nonempty (wf_engineNumber f)
  && negb (isNaN (wf_purchasePrice f) || nle (wf_purchasePrice f) (nconst 0)).

(** Stated from the specification: a sale is in the range of a report when
    its date is not before [fromDate] and not after [toDate], each bound
    counting only when it is given. *)
Definition spec_in_range (fromDate toDate : string) (sale : Sale num) : bool :=
  (negb (nonempty fromDate) || String.leb fromDate (sale_saleDate sale))
  && (negb (nonempty toDate) || String.leb (sale_saleDate sale) toDate).

(** Stated from the specification: the well-formed list that an import text
    carries under [key], if it carries one.  A list is a JSON array; its
    elements are not inspected. *)
Definition spec_imported_list (text key : string) : option (json num) :=
  match JSON_parse text with
  | Some (JObj props) =>
      match lookup_prop key props with
      | Some (JArr elems) => Some (JArr elems)
      | _ => None
      end
  | _ => None
  end.

End Persisted.

(** ** The rest of the program *)

(** The conversion of a number to a string, as in [prefix + Date.now()] and
    in [row.join(',')]. *)
Class JsNumberText (num : Type) := {
  ntoString : num → string
}.

Definition removeItem (key : string) : M unit :=
  λ w, (World (delete key (localStorage w)) (editingWheelId w) (dialogs w), Ok tt).

(** The double quote and the line feed of the CSV text. *)
Definition double_quote : ascii := "034"%char.
Definition line_feed : string := String "010"%char "".

Section Rest.
Context {num : Type} `{!JsNumber num, !JsonText num, !JsNumberText num}.

(** *** The admin toggle *)

(** [return state === 'true';] *)
Definition getAdminToggle : M bool :=
  state ← getItem "threeWheel_adminToggle";
  mret (match state with
        | Some text => String.eqb text "true"
        | None => false
        end).

(** [state.toString()] of a boolean. *)
Definition saveAdminToggle (state : bool) : M unit :=
  setItem "threeWheel_adminToggle" (if state then "true" else "false").

(** [handleAdminToggle()]; [checked] is the state of the check box. *)
Definition handleAdminToggle (checked : bool) : M unit :=
  saveAdminToggle checked;;
  refresh.

(** *** The demo data *)

(** [seedDemoData()]; [now i] is the value of the call number [i] of
    [Date.now()], of which there are six. *)
Definition seed_wheels (now : nat → num) : list (Wheel num) :=
  [ {| wheel_id := ("wheel_" +:+ ntoString (now 0)) +:+ "_1";
       wheel_model := "Bajaj Auto Rickshaw";
       wheel_year := nconst 2022;
       wheel_vehicleNumber := "ABC-1234";
       wheel_color := "Red";
       wheel_chassisNumber := "CH123456789";
       wheel_engineNumber := "EN987654321";
       wheel_notes := "Good condition, low mileage";
       wheel_purchasePrice := nconst 85000;
       wheel_addedDate := "2024-01-15" |};
    {| wheel_id := ("wheel_" +:+ ntoString (now 1)) +:+ "_2";
       wheel_model := "Mahindra Alfa";
       wheel_year := nconst 2023;
       wheel_vehicleNumber := "XYZ-5678";
       wheel_color := "Blue";
       wheel_chassisNumber := "CH987654321";
       wheel_engineNumber := "EN123456789";
       wheel_notes := "New model, excellent condition";
       wheel_purchasePrice := nconst 92000;
       wheel_addedDate := "2024-02-10" |};
    {| wheel_id := ("wheel_" +:+ ntoString (now 2)) +:+ "_3";
       wheel_model := "Piaggio Ape";
       wheel_year := nconst 2021;
       wheel_vehicleNumber := "DEF-9012";
       wheel_color := "White";
       wheel_chassisNumber := "CH456789123";
       wheel_engineNumber := "EN789123456";
       wheel_notes := "Used, needs minor repairs";
       wheel_purchasePrice := nconst 75000;
       wheel_addedDate := "2024-03-05" |};
    {| wheel_id := ("wheel_" +:+ ntoString (now 3)) +:+ "_4";
       wheel_model := "TVS King";
       wheel_year := nconst 2023;
       wheel_vehicleNumber := "GHI-3456";
       wheel_color := "Black";
       wheel_chassisNumber := "CH789123456";
       wheel_engineNumber := "EN456789123";
       wheel_notes := "Brand new, showroom condition";
       wheel_purchasePrice := nconst 98000;
       wheel_addedDate := "2024-03-20" |} ].

(** [wheels[i].id] *)
Definition seed_wheel_id (now : nat → num) (i : nat) : string :=
  from_option wheel_id "" (seed_wheels now !! i).

Definition seed_sales (now : nat → num) : list (Sale num) :=
  [ {| sale_id := ("sale_" +:+ ntoString (now 4)) +:+ "_1";
       sale_wheelId := seed_wheel_id now 0;
       sale_saleDate := "2024-02-01";
       sale_sellingPrice := nconst 95000;
       sale_paymentMethod := "Ready Cash";
       sale_buyerName := "Ahmed Khan";
       sale_buyerAddress := "123 Main Street, Karachi";
       sale_buyerNIC := "42101-1234567-1";
       sale_buyerPhone := "0300-1234567";
       sale_saleNotes := "Sold to regular customer" |};
    {| sale_id := ("sale_" +:+ ntoString (now 5)) +:+ "_2";
       sale_wheelId := seed_wheel_id now 1;
       sale_saleDate := "2024-03-15";
       sale_sellingPrice := nconst 105000;
       sale_paymentMethod := "Finance (Leasing)";
       sale_buyerName := "Fatima Ali";
       sale_buyerAddress := "456 Park Avenue, Lahore";
       sale_buyerNIC := "35202-9876543-2";
       sale_buyerPhone := "0312-9876543";
       sale_saleNotes := "Quick sale, finance approved" |} ].

Definition seedDemoData (now : nat → num) : M unit :=
  saveWheels (wheels_json (seed_wheels now));;
  saveSales (sales_json (seed_sales now)).

(** The storage and the dialogs after [seedDemoData]. *)
Definition seeded (now : nat → num) (ls : gmap string string) (e : option string)
    (d : list dialog) : world :=
  World
    (<["threeWheel_sales" := JSON_stringify (sales_json (seed_sales now))]>
       (<["threeWheel_items" := JSON_stringify (wheels_json (seed_wheels now))]> ls))
    e d.

(** [resetDemoData()]; [sure] is the user's answer to the [confirm]. *)
Definition resetDemoData (sure : bool) (now : nat → num) : M unit :=
  ok ← confirmAction
    "This will delete all current data and restore demo data. Are you sure?" sure;
  if negb ok then mret tt else
  removeItem "threeWheel_items";;
  removeItem "threeWheel_sales";;
  seedDemoData now;;
  showAlert "Demo data restored successfully";;
  refresh.

(** [v.length === 0]: an array has its number of elements, a string its
    number of characters, an object the property of that name, if it has
    one; a number is [=== 0] when it is false in a condition and not NaN. *)
Definition length_is_zero (v : json num) : M bool :=
  match v with
  | JNull => throw TypeError
  | JArr elems => mret (bool_decide (elems = []))
  | JStr s => mret (String.eqb s "")
  | JObj props =>
      mret (match lookup_prop "length" props with
            | Some (JNum n) => negb (ntruthy n) && negb (isNaN n)
            | _ => false
            end)
  | JBool _ | JNum _ => mret false
  end.

(** [init()], without the listeners it installs. *)
Definition init (now : nat → num) : M unit :=
  wheels ← loadWheels;
  none ← length_is_zero wheels;
  (if none : bool then seedDemoData now else mret tt);;
  checked ← getAdminToggle;
  refresh.

(** *** Wheel management *)

(** [getSoldWheelIds()] *)
Definition getSoldWheelIds : M (gset string) :=
  sales ← loadSales;
  ss ← sale_records sales;
  mret (list_to_set (map sale_wheelId ss)).

(** [getAvailableWheels()] *)
Definition getAvailableWheels : M (list (Wheel num)) :=
  wheels ← loadWheels;
  sales ← loadSales;
  ss ← sale_records sales;
  let soldWheelIds : gset string := list_to_set (map sale_wheelId ss) in
  ws ← wheel_records wheels;
  mret (List.filter (λ wheel, negb (bool_decide (wheel_id wheel ∈ soldWheelIds))) ws).

(** A wheel that no sale of [ss] references. *)
Definition unsold (ss : list (Sale num)) (wheel : Wheel num) : bool :=
  negb (existsb (λ sale, String.eqb (sale_wheelId sale) (wheel_id wheel)) ss).

(** The wheel [handleWheelSubmit] builds for a new wheel, and the one it
    puts in the place of [old] in an update. *)
Definition new_wheel (f : WheelForm) (newId today : string) : Wheel num :=
  {| wheel_id := newId;
     wheel_model := wf_model f;
     wheel_year := wf_year f;
     wheel_vehicleNumber := wf_vehicleNumber f;
     wheel_color := wf_color f;
     wheel_chassisNumber := wf_chassisNumber f;
     wheel_engineNumber := wf_engineNumber f;
     wheel_notes := wf_notes f;
     wheel_purchasePrice := wf_purchasePrice f;
     wheel_addedDate := today |}.

Definition updated_wheel (f : WheelForm) (old : Wheel num) : Wheel num :=
  {| wheel_id := wheel_id old;
     wheel_model := wf_model f;
     wheel_year := wf_year f;
     wheel_vehicleNumber := wf_vehicleNumber f;
     wheel_color := wf_color f;
     wheel_chassisNumber := wf_chassisNumber f;
     wheel_engineNumber := wf_engineNumber f;
     wheel_notes := wf_notes f;
     wheel_purchasePrice := wf_purchasePrice f;
     wheel_addedDate := wheel_addedDate old |}.

(** Every sale is the sale of a wheel of the collection. *)
Definition sales_reference_wheels (ws : list (Wheel num)) (ss : list (Sale num)) : Prop :=
  ∀ sale, sale ∈ ss → sale_wheelId sale ∈ map wheel_id ws.

(** [editWheel(wheelId)]; the values it puts into the form are the page. *)
Definition editWheel (wheelId : string) : M unit :=
  wheels ← loadWheels;
  ws ← wheel_records wheels;
  match List.find (λ w, String.eqb (wheel_id w) wheelId) ws with
  | None => showAlert "Wheel not found"
  | Some wheel => set_editingWheelId (Some wheelId)
  end.

(** *** Bills *)

(** [generateBill(saleId)] *)
Definition generateBill (saleId : string) : M unit :=
  sales ← loadSales;
  wheels ← loadWheels;
  ss ← sale_records sales;
  match List.find (λ s, String.eqb (sale_id s) saleId) ss with
  | None => showAlert "Sale not found"
  | Some sale =>
      ws ← wheel_records wheels;
      match List.find (λ w, String.eqb (wheel_id w) (sale_wheelId sale)) ws with
      | None => showAlert "Wheel information not found"
      | Some wheel =>
          setItem "threeWheel_currentSale" (JSON_stringify (sale_json sale))
      end
  end.

(** The sale object of the current sale. *)
Definition sale_record (v : json num) : M (Sale num) :=
  match sale_of_json v with
  | Some sale => mret sale
  | None => throw OutsideModel
  end.

(** [printBill()], up to the document it writes: the result is the sale
    and the wheel the document is written from, if it is written. *)
Definition printBill : M (option (Sale num * Wheel num)) :=
  saleData ← getItem "threeWheel_currentSale";
  if from_option nonempty false saleData then
    v ← parse (default "" saleData);
    wheels ← loadWheels;
    sale ← sale_record v;
    ws ← wheel_records wheels;
    match List.find (λ w, String.eqb (wheel_id w) (sale_wheelId sale)) ws with
    | None => showAlert "Wheel information not found";; mret None
    | Some wheel => mret (Some (sale, wheel))
    end
  else
    showAlert "No sale selected for bill generation";;
    mret None.


(** *** Amounts without rounding *)

(** The whole numbers up to [bound] in absolute value are added and
    subtracted without rounding, as long as the result is within the bound
    as well.  The numbers of JavaScript, which are binary64, have this
    property for the bound 2^53 = 9007199254740992. *)
Definition exact_up_to (bound : Z) : Prop :=
  ∀ a b : Z, (Z.abs a ≤ bound)%Z → (Z.abs b ≤ bound)%Z →
    ((Z.abs (a + b) ≤ bound)%Z → nadd (nconst a) (nconst b) = nconst (a + b)%Z)
    ∧ ((Z.abs (a - b) ≤ bound)%Z → nsub (nconst a) (nconst b) = nconst (a - b)%Z).

(** A whole amount from 0 to [cap]. *)
Definition whole_amount (cap : Z) (n : num) : Prop :=
  ∃ z : Z, (0 ≤ z ≤ cap)%Z ∧ n = nconst z.

(** *** The report as a CSV text *)

(** [exportToCSV()]; [currentReportData] is the value of the variable of
    that name, set by the last [renderReport()].  The result is the text of
    the downloaded file, if there is one. *)
Definition exportToCSV (currentReportData : list ReportRow) : M (option string) :=
  if Nat.eqb (length currentReportData) 0
  then showAlert "No data to export";; mret None else
  showPurchasePrice ← getAdminToggle;
  let headers := ["Model"; "Selling Price"; "Sale Date"] in
  let headers :=
    if showPurchasePrice : bool
    then (take 2 headers ++ ["Purchase Price"] ++ drop 2 headers)%list
    else headers in
  let headers := (headers ++ ["Profit"])%list in
  let csvContent := String.concat "," headers +:+ line_feed in
  let csvContent :=
    fold_left
      (λ csvContent item,
         let row :=
           [String double_quote (row_model item +:+ String double_quote "");
            ntoString (sale_sellingPrice (row_sale item));
            sale_saleDate (row_sale item)] in
         let row :=
           if showPurchasePrice
           then (take 2 row ++ [ntoString (row_purchasePrice item)] ++ drop 2 row)%list
           else row in
         let row := (row ++ [ntoString (row_profit item)])%list in
         csvContent +:+ (String.concat "," row +:+ line_feed))
      currentReportData csvContent in
  let count := length currentReportData in
  let totalRevenue :=
    fold_left (λ sum item, nadd sum (sale_sellingPrice (row_sale item)))
      currentReportData (nconst 0) in
  let totalCost :=
    fold_left (λ sum item, nadd sum (row_purchasePrice item))
      currentReportData (nconst 0) in
  let totalProfit := nsub totalRevenue totalCost in
  let csvContent := csvContent +:+ line_feed in
  let csvContent := csvContent +:+ ("Summary" +:+ line_feed) in
  let csvContent :=
    csvContent +:+ (("Count," +:+ ntoString (nconst (Z.of_nat count))) +:+ line_feed) in
  let csvContent :=
    csvContent +:+ (("Total Revenue," +:+ ntoString totalRevenue) +:+ line_feed) in
  let csvContent :=
    if showPurchasePrice
    then csvContent +:+ (("Total Cost," +:+ ntoString totalCost) +:+ line_feed)
    else csvContent in
  let csvContent :=
    csvContent +:+ (("Total Profit," +:+ ntoString totalProfit) +:+ line_feed) in
  showAlert "Report exported to CSV successfully";;
  mret (Some csvContent).

(** The three parts of the CSV text: the line of the column names, the
    line of a row and the summary after the rows.  The purchase price and
    the total cost are there when [show] is set. *)
Definition csv_header (show : bool) : string :=
  String.concat ","
    (["Model"; "Selling Price"] ++ (if show then ["Purchase Price"] else [])
     ++ ["Sale Date"; "Profit"])%list
  +:+ line_feed.

Definition csv_line (show : bool) (item : ReportRow) : string :=
  String.concat ","
    ([String double_quote (row_model item +:+ String double_quote "");
      ntoString (sale_sellingPrice (row_sale item))]
     ++ (if show then [ntoString (row_purchasePrice item)] else [])
     ++ [sale_saleDate (row_sale item); ntoString (row_profit item)])%list
  +:+ line_feed.

Definition csv_lines (show : bool) (items : list ReportRow) : string :=
  foldr (λ item rest, csv_line show item +:+ rest) "" items.

Definition csv_summary (show : bool) (total : Summary) : string :=
  line_feed +:+ ("Summary" +:+ line_feed)
  +:+ (("Count," +:+ ntoString (nconst (Z.of_nat (count total)))) +:+ line_feed)
  +:+ (("Total Revenue," +:+ ntoString (totalRevenue total)) +:+ line_feed)
  +:+ (if show then ("Total Cost," +:+ ntoString (totalCost total)) +:+ line_feed else "")
  +:+ (("Total Profit," +:+ ntoString (totalProfit total)) +:+ line_feed).

End Rest.

(** ** A reference platform

    An implementation of the two interfaces, used to run the program on
    concrete data: numbers are the integers and NaN ([None]), and the JSON
    texts are written and read by the functions below.  A numeral with a
    fraction or an exponent has no value in this number type and is
    rejected by [parse_value]. *)

Module Reference.

Definition number : Type := option Z.

#[export] Instance reference_number : JsNumber number := {
  nconst z := Some z;
  nadd a b := x ← a; y ← b; Some (x + y)%Z;
  nsub a b := x ← a; y ← b; Some (x - y)%Z;
  nle a b := match a, b with Some x, Some y => (x <=? y)%Z | _, _ => false end;
  nlt a b := match a, b with Some x, Some y => (x <? y)%Z | _, _ => false end;
  isNaN a := match a with None => true | Some _ => false end;
  ntruthy a := match a with Some x => negb (x =? 0)%Z | None => false end
}.

Definition dquote : ascii := "034"%char.
Definition backslash : ascii := "092"%char.

(** *** Writing *)

Fixpoint digits_of (fuel : nat) (n : N) (acc : string) : string :=
  match fuel with
  | O => acc
  | S fuel =>
      let acc := String (ascii_of_N (48 + n mod 10)) acc in
      if (n <? 10)%N then acc else digits_of fuel (n / 10) acc
  end.

Definition write_Z (z : Z) : string :=
  let n := Z.abs_N z in
  let ds := digits_of (S (N.to_nat (N.log2 n))) n "" in
  if (z <? 0)%Z then String "-" ds else ds.

Definition hex_digit (n : N) : ascii :=
  if (n <? 10)%N then ascii_of_N (48 + n) else ascii_of_N (87 + n).

Fixpoint escape (s : string) : string :=
  match s with
  | "" => ""
  | String c rest =>
      let n := N_of_ascii c in
      (if Ascii.eqb c dquote then String backslash (String dquote "")
       else if Ascii.eqb c backslash then String backslash (String backslash "")
       else if (n =? 8)%N then String backslash "b"
       else if (n =? 9)%N then String backslash "t"
       else if (n =? 10)%N then String backslash "n"
       else if (n =? 12)%N then String backslash "f"
       else if (n =? 13)%N then String backslash "r"
       else if (n <? 32)%N
            then String backslash
                   (String "u" (String "0" (String "0"
                     (String (hex_digit (n / 16)) (String (hex_digit (n mod 16)) "")))))
       else String c "") +:+ escape rest
  end.

Definition write_string (s : string) : string :=
  String dquote (escape s +:+ String dquote "").

(** [JSON.stringify(v)] *)
Fixpoint stringify (v : json number) : string :=
  match v with
  | JNull => "null"
  | JBool b => if b then "true" else "false"
  | JNum None => "null"
  | JNum (Some z) => write_Z z
  | JStr s => write_string s
  | JArr elems =>
      "[" +:+
      (fix items (l : list (json number)) : string :=
         match l with
         | [] => ""
         | [x] => stringify x
         | x :: rest => stringify x +:+ "," +:+ items rest
         end) elems +:+ "]"
  | JObj props =>
      "{" +:+
      (fix members (l : list (string * json number)) : string :=
         match l with
         | [] => ""
         | [(k, x)] => write_string k +:+ ":" +:+ stringify x
         | (k, x) :: rest =>
             write_string k +:+ ":" +:+ stringify x +:+ "," +:+ members rest
         end) props +:+ "}"
  end.

Definition newline : string := String "010"%char "".

(** [JSON.stringify(v, null, 2)], written at indentation [ind]. *)
Fixpoint stringify_at (ind : string) (v : json number) : string :=
  let ind' := ind +:+ "  " in
  match v with
  | JArr [] => "[]"
  | JArr elems =>
      "[" +:+ newline +:+
      (fix items (l : list (json number)) : string :=
         match l with
         | [] => ""
         | [x] => ind' +:+ stringify_at ind' x
         | x :: rest =>
             ind' +:+ stringify_at ind' x +:+ "," +:+ newline +:+ items rest
         end) elems +:+ newline +:+ ind +:+ "]"
  | JObj [] => "{}"
  | JObj props =>
      "{" +:+ newline +:+
      (fix members (l : list (string * json number)) : string :=
         match l with
         | [] => ""
         | [(k, x)] => ind' +:+ write_string k +:+ ": " +:+ stringify_at ind' x
         | (k, x) :: rest =>
             ind' +:+ write_string k +:+ ": " +:+ stringify_at ind' x +:+ ","
             +:+ newline +:+ members rest
         end) props +:+ newline +:+ ind +:+ "}"
  | _ => stringify v
  end.

(** *** Reading *)

Definition is_space (c : ascii) : bool :=
  let n := N_of_ascii c in
  (n =? 32)%N || (n =? 9)%N || (n =? 10)%N || (n =? 13)%N.

Fixpoint skip_space (s : string) : string :=
  match s with
  | String c rest => if is_space c then skip_space rest else s
  | "" => ""
  end.

Definition is_digit (c : ascii) : bool :=
  let n := N_of_ascii c in (48 <=? n)%N && (n <=? 57)%N.

Definition hex_value (c : ascii) : option N :=
  let n := N_of_ascii c in
  if (48 <=? n)%N && (n <=? 57)%N then Some (n - 48)%N
  else if (97 <=? n)%N && (n <=? 102)%N then Some (n - 87)%N
  else if (65 <=? n)%N && (n <=? 70)%N then Some (n - 55)%N
  else None.

(** The UTF-8 bytes of a code point below 65536. *)
Definition utf8 (n : N) : string :=
  if (n <? 128)%N then String (ascii_of_N n) ""
  else if (n <? 2048)%N
  then String (ascii_of_N (192 + n / 64)) (String (ascii_of_N (128 + n mod 64)) "")
  else String (ascii_of_N (224 + n / 4096))
         (String (ascii_of_N (128 + (n / 64) mod 64))
            (String (ascii_of_N (128 + n mod 64)) "")).

(** The characters of a string literal after its opening quote, and the
    text after its closing quote. *)
Fixpoint read_chars (s : string) : option (string * string) :=
  match s with
  | "" => None
  | String c rest =>
      if Ascii.eqb c dquote then Some ("", rest)
      else if Ascii.eqb c backslash then
        match rest with
        | "" => None
        | String e rest' =>
            if Ascii.eqb e "u" then
              match rest' with
              | String h1 (String h2 (String h3 (String h4 rest''))) =>
                  a ← hex_value h1; b ← hex_value h2;
                  c' ← hex_value h3; d ← hex_value h4;
                  '(str, after) ← read_chars rest'';
                  Some (utf8 (((a * 16 + b) * 16 + c') * 16 + d) +:+ str, after)
              | _ => None
              end
            else
              ch ← (if Ascii.eqb e dquote then Some dquote
                    else if Ascii.eqb e backslash then Some backslash
                    else if Ascii.eqb e "/" then Some "/"%char
                    else if Ascii.eqb e "b" then Some "008"%char
                    else if Ascii.eqb e "f" then Some "012"%char
                    else if Ascii.eqb e "n" then Some "010"%char
                    else if Ascii.eqb e "r" then Some "013"%char
                    else if Ascii.eqb e "t" then Some "009"%char
                    else None);
              '(str, after) ← read_chars rest';
              Some (String ch str, after)
        end
      else if (N_of_ascii c <? 32)%N then None
      else '(str, after) ← read_chars rest; Some (String c str, after)
  end.

Fixpoint read_digits (s : string) (acc : Z) : Z * string :=
  match s with
  | String c rest =>
      if is_digit c
      then read_digits rest (acc * 10 + Z.of_N (N_of_ascii c - 48))%Z
      else (acc, s)
  | "" => (acc, "")
  end.

(** An integer numeral: an optional minus sign, then [0] or digits that do
    not start with [0], and neither a fraction nor an exponent after it. *)
Definition read_number (s : string) : option (Z * string) :=
  let '(negative, s) :=
    match s with
    | String c rest => if Ascii.eqb c "-" then (true, rest) else (false, s)
    | "" => (false, s)
    end in
  match s with
  | String c rest =>
      if negb (is_digit c) then None else
      let '(n, after) :=
        if Ascii.eqb c "0" then (0%Z, rest) else read_digits s 0 in
      match after with
      | String d _ =>
          if is_digit d || Ascii.eqb d "." || Ascii.eqb d "e" || Ascii.eqb d "E"
          then None
          else Some (if negative then (- n)%Z else n, after)
      | "" => Some (if negative then (- n)%Z else n, after)
      end
  | "" => None
  end.

Definition read_word (word : string) (v : json number) (s : string)
  : option (json number * string) :=
  if String.prefix word s
  then Some (v, String.substring (String.length word) (String.length s) s)
  else None.

(** [JSON.parse] keeps one property per key: a key read again takes the
    new value and stays in its place.  [acc] is in reverse order. *)
Fixpoint put_member (k : string) (v : json number) (acc : list (string * json number))
  : list (string * json number) :=
  match acc with
  | [] => [(k, v)]
  | (k', v') :: rest =>
      if String.eqb k' k then (k', v) :: rest
      else if existsb (λ p, String.eqb p.1 k) rest then (k', v') :: put_member k v rest
      else (k, v) :: acc
  end.

(** A value at the start of [s], after white space, and the text after it. *)
Fixpoint parse_value (fuel : nat) (s : string) : option (json number * string) :=
  match fuel with
  | O => None
  | S fuel =>
      match skip_space s with
      | "" => None
      | String c rest as s' =>
          if Ascii.eqb c "n" then read_word "null" JNull s'
          else if Ascii.eqb c "t" then read_word "true" (JBool true) s'
          else if Ascii.eqb c "f" then read_word "false" (JBool false) s'
          else if Ascii.eqb c dquote then
            '(str, after) ← read_chars rest; Some (JStr str, after)
          else if Ascii.eqb c "[" then
            match skip_space rest with
            | String c' rest' as inner =>
                if Ascii.eqb c' "]" then Some (JArr [], rest') else
                (fix items (n : nat) (s : string) (acc : list (json number))
                   : option (json number * string) :=
                   match n with
                   | O => None
                   | S n =>
                       '(v, after) ← parse_value fuel s;
                       match skip_space after with
                       | String d after' =>
                           if Ascii.eqb d "," then items n after' (v :: acc)
                           else if Ascii.eqb d "]"
                           then Some (JArr (reverse (v :: acc)), after')
                           else None
                       | "" => None
                       end
                   end) fuel inner []
            | "" => None
            end
          else if Ascii.eqb c "{" then
            match skip_space rest with
            | String c' rest' as inner =>
                if Ascii.eqb c' "}" then Some (JObj [], rest') else
                (fix members (n : nat) (s : string) (acc : list (string * json number))
                   : option (json number * string) :=
                   match n with
                   | O => None
                   | S n =>
                       match skip_space s with
                       | String q body =>
                           if negb (Ascii.eqb q dquote) then None else
                           '(k, after) ← read_chars body;
                           match skip_space after with
                           | String colon after' =>
                               if negb (Ascii.eqb colon ":") then None else
                               '(v, after'') ← parse_value fuel after';
                               match skip_space after'' with
                               | String d after3 =>
                                   if Ascii.eqb d ","
                                   then members n after3 (put_member k v acc)
                                   else if Ascii.eqb d "}"
                                   then Some (JObj (reverse (put_member k v acc)), after3)
                                   else None
                               | "" => None
                               end
                           | "" => None
                           end
                       | "" => None
                       end
                   end) fuel inner []
            | "" => None
            end
          else '(z, after) ← read_number s'; Some (JNum (Some z), after)
      end
  end.

(** [JSON.parse(text)]: one value, with nothing but white space around. *)
Definition parse_text (text : string) : option (json number) :=
  '(v, after) ← parse_value (S (String.length text)) text;
  match skip_space after with
  | "" => Some v
  | _ => None
  end.

#[export] Instance reference_json : JsonText number := {
  JSON_parse := parse_text;
  JSON_stringify := stringify;
  JSON_stringify_indent := stringify_at ""
}.

End Reference.

(** ** A shop on the reference platform

    The first two wheels of [seedDemoData] and its first sale, and the
    states and inputs used in the examples. *)

Module Demo.
Import Reference.

Definition wheel1 : Wheel number :=
  {| wheel_id := "wheel_1700000000000_1";
     wheel_model := "Bajaj Auto Rickshaw";
     wheel_year := Some 2022%Z;
     wheel_vehicleNumber := "ABC-1234";
     wheel_color := "Red";
     wheel_chassisNumber := "CH123456789";
     wheel_engineNumber := "EN987654321";
     wheel_notes := "Good condition, low mileage";
     wheel_purchasePrice := Some 85000%Z;
     wheel_addedDate := "2024-01-15" |}.

Definition wheel2 : Wheel number :=
  {| wheel_id := "wheel_1700000000000_2";
     wheel_model := "Mahindra Alfa";
     wheel_year := Some 2023%Z;
     wheel_vehicleNumber := "XYZ-5678";
     wheel_color := "Blue";
     wheel_chassisNumber := "CH987654321";
     wheel_engineNumber := "EN123456789";
     wheel_notes := "New model, excellent condition";
     wheel_purchasePrice := Some 92000%Z;
     wheel_addedDate := "2024-02-10" |}.

Definition sale1 : Sale number :=
  {| sale_id := "sale_1700000000000_1";
     sale_wheelId := "wheel_1700000000000_1";
     sale_saleDate := "2024-02-01";
     sale_sellingPrice := Some 95000%Z;
     sale_paymentMethod := "Ready Cash";
     sale_buyerName := "Ahmed Khan";
     sale_buyerAddress := "123 Main Street, Karachi";
     sale_buyerNIC := "42101-1234567-1";
     sale_buyerPhone := "0300-1234567";
     sale_saleNotes := "Sold to regular customer" |}.

(** A second sale of the wheel of [sale1]. *)
Definition sale1_again : Sale number :=
  {| sale_id := "sale_1700000000000_9";
     sale_wheelId := "wheel_1700000000000_1";
     sale_saleDate := "2024-03-15";
     sale_sellingPrice := Some 99000%Z;
     sale_paymentMethod := "Ready Cash";
     sale_buyerName := "Fatima Ali";
     sale_buyerAddress := "456 Park Avenue, Lahore";
     sale_buyerNIC := "35202-9876543-2";
     sale_buyerPhone := "0312-9876543";
     sale_saleNotes := "" |}.

(** A sale of a wheel that is not in the collection. *)
Definition sale_dangling : Sale number :=
  {| sale_id := "sale_1700000000000_7";
     sale_wheelId := "wheel_gone";
     sale_saleDate := "2024-04-02";
     sale_sellingPrice := Some 70000%Z;
     sale_paymentMethod := "Ready Cash";
     sale_buyerName := "Bilal";
     sale_buyerAddress := "Multan";
     sale_buyerNIC := "36302-1111111-3";
     sale_buyerPhone := "0333-1111111";
     sale_saleNotes := "" |}.

(** Nothing stored yet. *)
Definition fresh : world := World ∅ None [].

(** Two wheels, the first one sold. *)
Definition shop : world :=
  World
    (<["threeWheel_sales" := stringify (sales_json [sale1])]>
       (<["threeWheel_items" := stringify (wheels_json [wheel1; wheel2])]> ∅))
    None [].

(** The shop, with a sale of a missing wheel as well. *)
Definition shop_dangling : world :=
  World
    (<["threeWheel_sales" := stringify (sales_json [sale1; sale_dangling])]>
       (<["threeWheel_items" := stringify (wheels_json [wheel1; wheel2])]> ∅))
    None [].

(** A storage whose wheel text is not JSON. *)
Definition broken : world :=
  World (<["threeWheel_sales" := "[1,"]> (<["threeWheel_items" := "{oops"]> ∅)) None [].

(** The sale form filled in for the second wheel. *)
Definition form_wheel2 : SaleForm :=
  {| sf_wheelId := "wheel_1700000000000_2";
     sf_sellingPrice := Some 105000%Z;
     sf_paymentMethod := "Finance (Leasing)";
     sf_buyerName := "Fatima Ali";
     sf_buyerAddress := "456 Park Avenue, Lahore";
     sf_buyerNIC := "35202-9876543-2";
     sf_buyerPhone := "0312-9876543";
     sf_saleDate := "2024-03-15";
     sf_saleNotes := "Quick sale, finance approved" |}.

(** The sale form filled in for the first wheel, which is sold. *)
Definition form_wheel1 : SaleForm :=
  {| sf_wheelId := "wheel_1700000000000_1";
     sf_sellingPrice := Some 99000%Z;
     sf_paymentMethod := "Ready Cash";
     sf_buyerName := "Fatima Ali";
     sf_buyerAddress := "456 Park Avenue, Lahore";
     sf_buyerNIC := "35202-9876543-2";
     sf_buyerPhone := "0312-9876543";
     sf_saleDate := "2024-03-15";
     sf_saleNotes := "" |}.

(** The same form with the selling price 0. *)
Definition form_wheel1_free : SaleForm :=
  {| sf_wheelId := "wheel_1700000000000_1";
     sf_sellingPrice := Some 0%Z;
     sf_paymentMethod := "Ready Cash";
     sf_buyerName := "Fatima Ali";
     sf_buyerAddress := "456 Park Avenue, Lahore";
     sf_buyerNIC := "35202-9876543-2";
     sf_buyerPhone := "0312-9876543";
     sf_saleDate := "2024-03-15";
     sf_saleNotes := "" |}.

(** The wheel form of an edit of a wheel with the id ["wheel_gone"]. *)
Definition form_gone : WheelForm :=
  {| wf_wheelId := "wheel_gone";
     wf_model := "TVS King";
     wf_year := Some 2023%Z;
     wf_vehicleNumber := "GHI-3456";
     wf_color := "Black";
     wf_chassisNumber := "CH789123456";
     wf_engineNumber := "EN456789123";
     wf_purchasePrice := Some 98000%Z;
     wf_notes := "" |}.

(** The shop while that edit is open. *)
Definition shop_editing : world :=
  World (localStorage shop) (Some "wheel_gone") [].

(** A backup text with two sales of one wheel, and no wheels. *)
Definition backup_two_sales : string :=
  stringify_at "" (JObj [("sales", sales_json [sale1; sale1_again])]).

(** A backup text with one sale. *)
Definition backup_one_sale : string :=
  stringify_at "" (JObj [("sales", sales_json [sale1])]).

End Demo.

(** ** The reference platform and the shop, continued *)

Module ReferenceText.
Import Reference.

(** [String(n)] of an integer or NaN. *)
#[export] Instance reference_number_text : JsNumberText number := {
  ntoString n := match n with Some z => write_Z z | None => "NaN" end
}.

(** A clock that advances by one millisecond from call to call. *)
Definition clock (i : nat) : number := Some (1700000000000 + Z.of_nat i)%Z.

End ReferenceText.

Module Cases.
Import Reference Demo.

(** The wheel form of a new wheel. *)
Definition form_new : WheelForm :=
  {| wf_wheelId := "";
     wf_model := "Piaggio Ape";
     wf_year := Some 2021%Z;
     wf_vehicleNumber := "DEF-9012";
     wf_color := "White";
     wf_chassisNumber := "CH456789123";
     wf_engineNumber := "EN789123456";
     wf_purchasePrice := Some 75000%Z;
     wf_notes := "Used, needs minor repairs" |}.

(** The wheel form of an edit of the second wheel: a new colour and price. *)
Definition form_repaint : WheelForm :=
  {| wf_wheelId := "wheel_1700000000000_2";
     wf_model := "Mahindra Alfa";
     wf_year := Some 2023%Z;
     wf_vehicleNumber := "XYZ-5678";
     wf_color := "Green";
     wf_chassisNumber := "CH987654321";
     wf_engineNumber := "EN123456789";
     wf_purchasePrice := Some 93500%Z;
     wf_notes := "Repainted" |}.

(** A wheel form with a year that is out of range. *)
Definition form_old : WheelForm :=
  {| wf_wheelId := "";
     wf_model := "Piaggio Ape";
     wf_year := Some 1899%Z;
     wf_vehicleNumber := "DEF-9012";
     wf_color := "White";
     wf_chassisNumber := "CH456789123";
     wf_engineNumber := "EN789123456";
     wf_purchasePrice := Some 75000%Z;
     wf_notes := "" |}.

(** The shop after the bill of its sale has been generated. *)
Definition shop_billed : world :=
  World (<["threeWheel_currentSale" := stringify (sale_json sale1)]> (localStorage shop))
    None [].

End Cases.

(** * Properties *)

Section Running.
Context {num : Type} `{!JsNumber num, !JsonText num}.

(** ** Running the monad *)

Lemma run_bind {A B} (m : M A) (k : A → M B) (w : world) :
  (m ≫= k) w =
  match m w with
  | (w', Ok a) => k a w'
  | (w', Throw e) => (w', Throw e)
  end.
Proof. reflexivity. Qed.

Lemma stored_eq (key : string) (w : world) :
  stored key w =
  match localStorage w !! key with
  | Some text =>
      if nonempty text
      then match JSON_parse text with Some v => Ok v | None => Throw SyntaxError end
      else Ok (JArr [])
  | None => Ok (JArr [])
  end.
Proof.
  unfold stored, load, getItem. rewrite run_bind.
  destruct (localStorage w !! key) as [text|]; [|reflexivity].
  destruct (nonempty text); [|reflexivity].
  unfold parse. by destruct (JSON_parse text).
Qed.

Lemma run_load (key : string) (w : world) : load key w = (w, stored key w).
Proof.
  rewrite stored_eq. unfold load, getItem. rewrite run_bind.
  destruct (localStorage w !! key) as [text|]; [|reflexivity].
  destruct (nonempty text); [|reflexivity].
  unfold parse. by destruct (JSON_parse text).
Qed.

(** What is stored depends on the storage only. *)
Lemma stored_storage (key : string) (w w' : world) :
  localStorage w = localStorage w' → stored key w = stored key w'.
Proof. intros E. by rewrite !stored_eq, E. Qed.

(** ** Records and their JSON values *)

Lemma wheel_of_json_json (x : Wheel num) : wheel_of_json (wheel_json x) = Some x.
Proof. by destruct x. Qed.

Lemma sale_of_json_json (x : Sale num) : sale_of_json (sale_json x) = Some x.
Proof. by destruct x. Qed.

Lemma as_wheels_json (ws : list (Wheel num)) : as_wheels (wheels_json ws) = Some ws.
Proof. apply mapM_fmap_Some, wheel_of_json_json. Qed.

Lemma as_sales_json (ss : list (Sale num)) : as_sales (sales_json ss) = Some ss.
Proof. apply mapM_fmap_Some, sale_of_json_json. Qed.

Lemma run_wheel_records (ws : list (Wheel num)) (w : world) :
  wheel_records (wheels_json ws) w = (w, Ok ws).
Proof. unfold wheel_records. by rewrite as_wheels_json. Qed.

Lemma run_sale_records (ss : list (Sale num)) (w : world) :
  sale_records (sales_json ss) w = (w, Ok ss).
Proof. unfold sale_records. by rewrite as_sales_json. Qed.

Lemma has_sales_shown (d : dialog) (w : world) (ss : list (Sale num)) :
  has_sales w ss → has_sales (shown d w) ss.
Proof. unfold has_sales. intros <-. by apply stored_storage. Qed.

Lemma stored_World (key : string) (w : world) (e : option string) (d : list dialog) :
  stored key (World (localStorage w) e d) = stored key w.
Proof. by apply stored_storage. Qed.

Lemma stored_insert_ne (key k v : string) (ls : gmap string string)
    (e : option string) (d : list dialog) :
  k ≠ key → stored key (World (<[k := v]> ls) e d) = stored key (World ls e d).
Proof. intros Hne. rewrite !stored_eq. simpl. by rewrite lookup_insert_ne. Qed.

Lemma stored_insert_eq (key : string) (v : json num) (ls : gmap string string)
    (e : option string) (d : list dialog) :
  persists v → stored key (World (<[key := JSON_stringify v]> ls) e d) = Ok v.
Proof.
  intros [Hne Hparse]. rewrite stored_eq. simpl.
  by rewrite lookup_insert_eq, Hne, Hparse.
Qed.

End Running.

#[local] Ltac run :=
  repeat first
    [ rewrite run_bind | rewrite run_load | rewrite run_sale_records
    | rewrite run_wheel_records | rewrite stored_World ].

(** Unfolds the operations of the monad, and nothing else. *)
#[local] Ltac exec :=
  cbv beta iota zeta delta
    [mbind M_bind mret M_ret throw try_catch getItem setItem showAlert
     confirmAction set_editingWheelId get_editingWheelId resetWheelForm
     saveWheels saveSales get_prop parse shown];
  cbn [negb andb orb localStorage editingWheelId dialogs fst snd].

Section Refreshing.
Context {num : Type} `{!JsNumber num, !JsonText num}.

(** [refresh] changes nothing, and succeeds on two lists of records. *)
Lemma refresh_eq (w : world) : refresh w = (w, (refresh w).2).
Proof.
  unfold refresh, loadWheels, loadSales, sale_records, wheel_records. exec.
  rewrite run_load. destruct (stored "threeWheel_items" w) as [wheels|]; [|done].
  rewrite run_load. destruct (stored "threeWheel_sales" w) as [sales|]; [|done].
  destruct (as_sales sales); [|done].
  by destruct (as_wheels wheels).
Qed.

Lemma run_refresh (w : world) (ws : list (Wheel num)) (ss : list (Sale num)) :
  has_wheels w ws → has_sales w ss → refresh w = (w, Ok tt).
Proof.
  unfold has_wheels, has_sales. intros Hws Hss.
  unfold refresh, loadWheels, loadSales. run. rewrite Hws. run. rewrite Hss. by run.
Qed.

End Refreshing.

(** ** Recording a sale *)

Section Sales.
Context {num : Type} `{!JsNumber num, !JsonText num}.

(** A form that fails a check is answered with one alert and nothing else. *)
Lemma handleSaleSubmit_invalid (f : SaleForm) (newId : string) (w : world) :
  sale_form_valid f = false →
  ∃ message, handleSaleSubmit f newId w = (shown (Alert message) w, Ok tt).
Proof.
  unfold handleSaleSubmit, sale_form_valid.
  destruct (nonempty (sf_wheelId f)); simpl; [|by eexists].
  destruct (isNaN _ || nle _ _); simpl; [by eexists|].
  destruct (nonempty (sf_paymentMethod f)); simpl; [|by eexists].
  destruct (nonempty (sf_buyerName f)); simpl; [|by eexists].
  destruct (nonempty (sf_buyerAddress f)); simpl; [|by eexists].
  destruct (nonempty (sf_buyerNIC f)); simpl; [|by eexists].
  destruct (nonempty (sf_buyerPhone f)); simpl; [|by eexists].
  destruct (nonempty (sf_saleDate f)); simpl; [|by eexists].
  discriminate.
Qed.

(** A form that passes the checks, for a wheel that has a sale already. *)
Lemma handleSaleSubmit_sold (f : SaleForm) (newId : string) (w : world)
    (ss : list (Sale num)) :
  sale_form_valid f = true →
  has_sales w ss →
  existsb (λ sale, String.eqb (sale_wheelId sale) (sf_wheelId f)) ss = true →
  handleSaleSubmit f newId w
  = (shown (Alert "This wheel has already been sold") w, Ok tt).
Proof.
  unfold handleSaleSubmit, sale_form_valid, has_sales. intros Hvalid Hss Hsold.
  destruct (nonempty (sf_wheelId f)); simpl in *; [|discriminate].
  destruct (isNaN _ || nle _ _); simpl in *; [discriminate|].
  destruct (nonempty (sf_paymentMethod f)); simpl in *; [|discriminate].
  destruct (nonempty (sf_buyerName f)); simpl in *; [|discriminate].
  destruct (nonempty (sf_buyerAddress f)); simpl in *; [|discriminate].
  destruct (nonempty (sf_buyerNIC f)); simpl in *; [|discriminate].
  destruct (nonempty (sf_buyerPhone f)); simpl in *; [|discriminate].
  destruct (nonempty (sf_saleDate f)); simpl in *; [|discriminate].
  unfold loadSales. run. rewrite Hss. run. by rewrite Hsold.
Qed.

(** A form that passes the checks, for a wheel without a sale: the sale is
    appended to the collection. *)
Lemma handleSaleSubmit_recorded (f : SaleForm) (newId : string) (w : world)
    (ss : list (Sale num)) :
  sale_form_valid f = true →
  has_sales w ss →
  existsb (λ sale, String.eqb (sale_wheelId sale) (sf_wheelId f)) ss = false →
  (handleSaleSubmit f newId w).1
  = World
      (<["threeWheel_currentSale" := JSON_stringify (sale_json (sale_of_form f newId))]>
         (<["threeWheel_sales" := JSON_stringify (sales_json (ss ++ [sale_of_form f newId]))]>
            (localStorage w)))
      (editingWheelId w)
      (dialogs w ++ [Alert "Sale recorded successfully"]).
Proof.
  unfold handleSaleSubmit, sale_form_valid, has_sales. intros Hvalid Hss Hsold.
  destruct (nonempty (sf_wheelId f)); simpl in *; [|discriminate].
  destruct (isNaN _ || nle _ _); simpl in *; [discriminate|].
  destruct (nonempty (sf_paymentMethod f)); simpl in *; [|discriminate].
  destruct (nonempty (sf_buyerName f)); simpl in *; [|discriminate].
  destruct (nonempty (sf_buyerAddress f)); simpl in *; [|discriminate].
  destruct (nonempty (sf_buyerNIC f)); simpl in *; [|discriminate].
  destruct (nonempty (sf_buyerPhone f)); simpl in *; [|discriminate].
  destruct (nonempty (sf_saleDate f)); simpl in *; [|discriminate].
  unfold loadSales. run. rewrite Hss. run. rewrite Hsold.
  exec. by rewrite refresh_eq.
Qed.

(** C2, as amended: when some sale in the stored collection references the
    wheel chosen in the form, [handleSaleSubmit] leaves the storage as it
    is, whatever the other values of the form; when the form passes the
    field checks, which come first, the answer is the alert that the wheel
    has already been sold.  The collection checked is the one read from the
    storage at that moment. *)
Theorem record_sale_already_sold (w : world) (ss : list (Sale num)) (f : SaleForm)
    (newId : string) :
  has_sales w ss →
  existsb (λ sale, String.eqb (sale_wheelId sale) (sf_wheelId f)) ss = true →
  localStorage (handleSaleSubmit f newId w).1 = localStorage w
  ∧ (sale_form_valid f = true →
     handleSaleSubmit f newId w
     = (shown (Alert "This wheel has already been sold") w, Ok tt)).
Proof.
  intros Hss Hsold. destruct (sale_form_valid f) eqn:Hvalid.
  - by rewrite (handleSaleSubmit_sold f newId w ss Hvalid Hss Hsold).
  - destruct (handleSaleSubmit_invalid f newId w Hvalid) as [message ->].
    by split.
Qed.

End Sales.

(** ** Backup and restore *)

Section Backup.
Context {num : Type} `{!JsNumber num, !JsonText num}.

(** The storage after an import that the user has confirmed. *)
Lemma handleFileImport_storage (text : string) (w : world) :
  (handleFileImport (Some text) true w).2 = Ok tt
  ∧ localStorage (handleFileImport (Some text) true w).1 =
    let ls1 :=
      match spec_imported_list text "wheels" with
      | Some v => <["threeWheel_items" := JSON_stringify v]> (localStorage w)
      | None => localStorage w
      end in
    match spec_imported_list text "sales" with
    | Some v => <["threeWheel_sales" := JSON_stringify v]> ls1
    | None => ls1
    end.
Proof.
  unfold handleFileImport, spec_imported_list. exec.
  destruct (JSON_parse text) as [data|]; [|done].
  assert (∀ w' : world,
    (let (w'', r) := refresh w' in
     match r with
     | Ok a => (w'', Ok a)
     | Throw _ =>
         (World (localStorage w'') (editingWheelId w'')
            (dialogs w'' ++ [Alert "Error importing file. Please check the file format."]),
          Ok tt)
     end).2 = Ok tt
    ∧ localStorage
        (let (w'', r) := refresh w' in
         match r with
         | Ok a => (w'', Ok a)
         | Throw _ =>
             (World (localStorage w'') (editingWheelId w'')
                (dialogs w'' ++ [Alert "Error importing file. Please check the file format."]),
              Ok tt)
         end).1 = localStorage w') as Hrefresh.
  { intros w'. rewrite refresh_eq. by destruct (refresh w').2 as [[]|e]. }
  destruct data as [| | | | |props]; exec; try done;
    try (match goal with |- context [refresh ?x] => exact (Hrefresh x) end).
  destruct (lookup_prop "wheels" props) as [[| b | n | s | elems | props']|];
    unfold truthy, isArray; exec;
    try destruct b; try destruct (ntruthy n); try destruct (nonempty s);
    (destruct (lookup_prop "sales" props) as [[| b' | n' | s' | elems' | props'']|];
     try destruct b'; try destruct (ntruthy n'); try destruct (nonempty s');
     exec; match goal with |- context [refresh ?x] => exact (Hrefresh x) end).
Qed.

Lemma handleFileImport_declined (text : string) (w : world) :
  (handleFileImport (Some text) false w).2 = Ok tt
  ∧ localStorage (handleFileImport (Some text) false w).1 = localStorage w.
Proof.
  unfold handleFileImport. exec. by destruct (JSON_parse text).
Qed.

(** C9: an import that the user has confirmed never ends in an exception,
    and it writes the wheel collection exactly when the text is a JSON
    object whose [wheels] property is an array, the sale collection exactly
    when its [sales] property is an array, each key on its own; a key whose
    property is missing or is not an array keeps its text, as do all other
    keys.  A text that cannot be parsed, or that is [null], changes
    nothing.  An import that the user declines changes nothing either. *)
Theorem import_replaces_lists (text : string) (w : world) :
  let w' := (handleFileImport (Some text) true w).1 in
  (handleFileImport (Some text) true w).2 = Ok tt
  ∧ localStorage w' !! "threeWheel_items" =
    match spec_imported_list text "wheels" with
    | Some v => Some (JSON_stringify v)
    | None => localStorage w !! "threeWheel_items"
    end
  ∧ localStorage w' !! "threeWheel_sales" =
    match spec_imported_list text "sales" with
    | Some v => Some (JSON_stringify v)
    | None => localStorage w !! "threeWheel_sales"
    end
  ∧ (∀ key, key ≠ "threeWheel_items" → key ≠ "threeWheel_sales" →
     localStorage w' !! key = localStorage w !! key)
  ∧ (JSON_parse text = None ∨ JSON_parse text = Some JNull →
     localStorage w' = localStorage w)
  ∧ localStorage (handleFileImport (Some text) false w).1 = localStorage w
  ∧ localStorage (handleFileImport None true w).1 = localStorage w.
Proof.
  destruct (handleFileImport_storage text w) as [Hok Hls].
  destruct (handleFileImport_declined text w) as [_ Hno].
  cbv zeta in *. rewrite Hls. clear Hls. repeat split; try done.
  - destruct (spec_imported_list text "wheels"), (spec_imported_list text "sales"); simpl;
      repeat (rewrite lookup_insert_ne by done); by rewrite ?lookup_insert_eq.
  - destruct (spec_imported_list text "wheels"), (spec_imported_list text "sales"); simpl;
      rewrite ?lookup_insert_eq; by repeat (rewrite lookup_insert_ne by done).
  - intros key Hw Hs.
    destruct (spec_imported_list text "wheels"), (spec_imported_list text "sales"); simpl;
      by repeat (rewrite lookup_insert_ne by done).
  - unfold spec_imported_list. by intros [-> | ->].
Qed.

(** C10: when the two collections of [w] are lists, the text that
    [exportToJSON] produces in [w], imported into any state [w2] and
    confirmed, makes the two collections of the new state equal to those of
    [w]: the same records in the same order.  The texts the platform writes
    are assumed to be read back as the values they were written from. *)
Theorem export_import_round_trip (w w2 : world) (now : string)
    (wheels sales : list (json num)) :
  stored "threeWheel_items" w = Ok (JArr wheels) →
  stored "threeWheel_sales" w = Ok (JArr sales) →
  JSON_parse (JSON_stringify_indent
    (JObj [("wheels", JArr wheels); ("sales", JArr sales); ("exportDate", JStr now)]))
  = Some (JObj [("wheels", JArr wheels); ("sales", JArr sales); ("exportDate", JStr now)]) →
  persists (JArr wheels) →
  persists (JArr sales) →
  ∃ text,
    exportToJSON now w = (shown (Alert "Data exported to JSON successfully") w, Ok text)
    ∧ stored "threeWheel_items" (handleFileImport (Some text) true w2).1 = Ok (JArr wheels)
    ∧ stored "threeWheel_sales" (handleFileImport (Some text) true w2).1 = Ok (JArr sales).
Proof.
  intros Hwheels Hsales Hparse Pwheels Psales. eexists. split.
  - unfold exportToJSON, loadWheels, loadSales. run. rewrite Hwheels. run.
    rewrite Hsales. reflexivity.
  - set (text := JSON_stringify_indent _) in *.
    assert (spec_imported_list text "wheels" = Some (JArr wheels)) as Hw
      by (unfold spec_imported_list; by rewrite Hparse).
    assert (spec_imported_list text "sales" = Some (JArr sales)) as Hs
      by (unfold spec_imported_list; by rewrite Hparse).
    destruct (handleFileImport_storage text w2) as [_ Hls].
    rewrite Hw, Hs in Hls. cbv zeta in Hls.
    set (w3 := (handleFileImport _ true w2).1) in *.
    split.
    + rewrite (stored_storage _ w3 (World (localStorage w3) None [])) by done.
      rewrite Hls, stored_insert_ne by done. by apply stored_insert_eq.
    + rewrite (stored_storage _ w3 (World (localStorage w3) None [])) by done.
      rewrite Hls. by apply stored_insert_eq.
Qed.

End Backup.

(** ** Deleting and updating a wheel *)

Section Wheels.
Context {num : Type} `{!JsNumber num, !JsonText num}.

Lemma elem_of_List_filter {A} (p : A → bool) (l : list A) (x : A) :
  x ∈ List.filter p l ↔ x ∈ l ∧ p x = true.
Proof. by rewrite !list_elem_of_In, filter_In. Qed.

Lemma existsb_false_filter {A} (p : A → bool) (l : list A) :
  existsb p l = false → List.filter (λ x, negb (p x)) l = l.
Proof.
  induction l as [|x l IH]; simpl; [done|].
  intros [Hx Hl]%orb_false_iff. rewrite Hx. simpl. by rewrite IH.
Qed.

Lemma existsb_filter_negb {A} (p : A → bool) (l : list A) :
  existsb p (List.filter (λ x, negb (p x)) l) = false.
Proof.
  induction l as [|x l IH]; simpl; [done|].
  destruct (p x) eqn:Hx; simpl; [done|]. by rewrite Hx.
Qed.

Lemma existsb_wheel_id (v : string) (ws : list (Wheel num)) :
  existsb (λ x, String.eqb (wheel_id x) v) ws = false ↔ v ∉ map wheel_id ws.
Proof.
  induction ws as [|x ws IH]; simpl.
  - split; [intros _; apply not_elem_of_nil | done].
  - rewrite orb_false_iff, IH, not_elem_of_cons, String.eqb_neq.
    split; intros [? ?]; split; congruence.
Qed.

Lemma existsb_sale_wheelId (v : string) (ss : list (Sale num)) :
  existsb (λ x, String.eqb (sale_wheelId x) v) ss = false ↔ v ∉ map sale_wheelId ss.
Proof.
  induction ss as [|x ss IH]; simpl.
  - split; [intros _; apply not_elem_of_nil | done].
  - rewrite orb_false_iff, IH, not_elem_of_cons, String.eqb_neq.
    split; intros [? ?]; split; congruence.
Qed.

(** What [deleteWheel] writes, by the answers of the user. *)
Lemma deleteWheel_storage (v : string) (sure cascade : bool) (w : world)
    (ws : list (Wheel num)) (ss : list (Sale num)) :
  has_wheels w ws →
  has_sales w ss →
  localStorage (deleteWheel v sure cascade w).1 =
  let ws' := List.filter (λ x, negb (String.eqb (wheel_id x) v)) ws in
  let ss' := List.filter (λ x, negb (String.eqb (sale_wheelId x) v)) ss in
  if negb sure then localStorage w
  else if existsb (λ x, String.eqb (sale_wheelId x) v) ss then
    if negb cascade then localStorage w
    else <["threeWheel_items" := JSON_stringify (wheels_json ws')]>
           (<["threeWheel_sales" := JSON_stringify (sales_json ss')]> (localStorage w))
  else <["threeWheel_items" := JSON_stringify (wheels_json ws')]> (localStorage w).
Proof.
  unfold has_wheels, has_sales. intros Hws Hss. unfold deleteWheel, loadWheels, loadSales.
  destruct sure; [|done].
  run. exec. run. rewrite Hws. run. rewrite Hss. run.
  destruct (existsb _ ss); run.
  - destruct cascade; [|done]. exec. run. exec.
    rewrite refresh_eq. by destruct (refresh _).2 as [[]|e].
  - exec. rewrite refresh_eq. by destruct (refresh _).2 as [[]|e].
Qed.

(** What [deleteWheel] does, by the answers of the user, when the lists it
    writes are read back as they were written. *)
Lemma deleteWheel_run (v : string) (sure cascade : bool) (w : world)
    (ws : list (Wheel num)) (ss : list (Sale num)) :
  has_wheels w ws →
  has_sales w ss →
  persists (wheels_json (List.filter (λ x, negb (String.eqb (wheel_id x) v)) ws)) →
  persists (sales_json (List.filter (λ x, negb (String.eqb (sale_wheelId x) v)) ss)) →
  deleteWheel v sure cascade w =
  let ask :=
    Confirm "Are you sure you want to delete this wheel? This action cannot be undone." in
  let ask_cascade :=
    Confirm "This wheel has been sold. Deleting it will also remove the sale record. Continue?" in
  let ws' := List.filter (λ x, negb (String.eqb (wheel_id x) v)) ws in
  let ss' := List.filter (λ x, negb (String.eqb (sale_wheelId x) v)) ss in
  if negb sure then (shown (ask false) w, Ok tt)
  else if existsb (λ x, String.eqb (sale_wheelId x) v) ss then
    if negb cascade then (shown (ask_cascade false) (shown (ask true) w), Ok tt)
    else (World
            (<["threeWheel_items" := JSON_stringify (wheels_json ws')]>
               (<["threeWheel_sales" := JSON_stringify (sales_json ss')]> (localStorage w)))
            (editingWheelId w)
            (dialogs w ++ [ask true; ask_cascade true; Alert "Wheel deleted successfully"]),
          Ok tt)
  else (World
          (<["threeWheel_items" := JSON_stringify (wheels_json ws')]> (localStorage w))
          (editingWheelId w)
          (dialogs w ++ [ask true; Alert "Wheel deleted successfully"]),
        Ok tt).
Proof.
  unfold has_wheels, has_sales. intros Hws Hss Pws Pss.
  unfold deleteWheel, loadWheels, loadSales.
  destruct sure; [|done].
  run. exec. run. rewrite Hws. run. rewrite Hss. run.
  destruct (existsb _ ss); run.
  - destruct cascade; [|done]. exec. run. exec.
    erewrite run_refresh.
    + exec. by rewrite <- !app_assoc.
    + by apply stored_insert_eq.
    + unfold has_sales. rewrite stored_insert_ne by done. by apply stored_insert_eq.
  - exec.
    erewrite run_refresh.
    + exec. by rewrite <- !app_assoc.
    + by apply stored_insert_eq.
    + unfold has_sales. rewrite stored_insert_ne by done. by rewrite stored_World.
Qed.

(** C3: for a wheel that some sale references, [deleteWheel] asks for a
    second confirmation, about the sale.  When the user declines it the
    storage is left as it is and the only trace is the question asked;
    when the user accepts it both collections are written, the sales
    without the sales of the wheel and the wheels without the wheel, and
    the deletion is reported.  The lists written are assumed to be read
    back as they were written, for the page that is drawn again. *)
Theorem delete_sold_wheel (v : string) (w : world) (ws : list (Wheel num))
    (ss : list (Sale num)) :
  has_wheels w ws →
  has_sales w ss →
  existsb (λ x, String.eqb (sale_wheelId x) v) ss = true →
  persists (wheels_json (List.filter (λ x, negb (String.eqb (wheel_id x) v)) ws)) →
  persists (sales_json (List.filter (λ x, negb (String.eqb (sale_wheelId x) v)) ss)) →
  let ask :=
    Confirm "Are you sure you want to delete this wheel? This action cannot be undone." in
  let ask_cascade :=
    Confirm "This wheel has been sold. Deleting it will also remove the sale record. Continue?" in
  let ws' := List.filter (λ x, negb (String.eqb (wheel_id x) v)) ws in
  let ss' := List.filter (λ x, negb (String.eqb (sale_wheelId x) v)) ss in
  deleteWheel v true false w = (shown (ask_cascade false) (shown (ask true) w), Ok tt)
  ∧ deleteWheel v true true w =
    (World
       (<["threeWheel_items" := JSON_stringify (wheels_json ws')]>
          (<["threeWheel_sales" := JSON_stringify (sales_json ss')]> (localStorage w)))
       (editingWheelId w)
       (dialogs w ++ [ask true; ask_cascade true; Alert "Wheel deleted successfully"]),
     Ok tt)
  ∧ (v ∉ map wheel_id ws')
  ∧ (v ∉ map sale_wheelId ss')
  ∧ (∀ x, x ∈ ws' ↔ x ∈ ws ∧ wheel_id x ≠ v)
  ∧ (∀ x, x ∈ ss' ↔ x ∈ ss ∧ sale_wheelId x ≠ v).
Proof.
  intros Hws Hss Hsold Pws Pss. cbv zeta.
  rewrite !(deleteWheel_run v _ _ w ws ss Hws Hss Pws Pss). cbv zeta. rewrite Hsold. simpl.
  split; [done|]. split; [done|].
  split; [apply existsb_wheel_id, existsb_filter_negb|].
  split; [apply existsb_sale_wheelId, existsb_filter_negb|].
  split; intros x; by rewrite elem_of_List_filter, negb_true_iff, String.eqb_neq.
Qed.

(** A form that fails a check is answered with one alert and nothing else. *)
Lemma handleWheelSubmit_invalid (f : WheelForm) (newId today : string) (w : world) :
  wheel_form_valid f = false →
  ∃ message, handleWheelSubmit f newId today w = (shown (Alert message) w, Ok tt).
Proof.
  unfold handleWheelSubmit, wheel_form_valid.
  destruct (nonempty (wf_model f)); simpl; [|by eexists].
  destruct (isNaN (wf_year f) || _ || _); simpl; [by eexists|].
  destruct (nonempty (wf_vehicleNumber f)); simpl; [|by eexists].
  destruct (nonempty (wf_color f)); simpl; [|by eexists].
  destruct (nonempty (wf_chassisNumber f)); simpl; [|by eexists].
  destruct (nonempty (wf_engineNumber f)); simpl; [|by eexists].
  destruct (isNaN (wf_purchasePrice f) || _); simpl; [by eexists|].
  discriminate.
Qed.

(** An update of a wheel that is not in the collection does nothing but
    leave the edit mode. *)
Lemma handleWheelSubmit_absent (f : WheelForm) (newId today : string) (w : world)
    (ws : list (Wheel num)) (ss : list (Sale num)) :
  wheel_form_valid f = true →
  has_wheels w ws →
  has_sales w ss →
  nonempty (wf_wheelId f) = true →
  from_option nonempty false (editingWheelId w) = true →
  wf_wheelId f ∉ map wheel_id ws →
  handleWheelSubmit f newId today w = (World (localStorage w) None (dialogs w), Ok tt).
Proof.
  unfold handleWheelSubmit, wheel_form_valid.
  intros Hvalid Hws Hss Hid Hedit Habsent.
  destruct (nonempty (wf_model f)); simpl in *; [|discriminate].
  destruct (isNaN (wf_year f) || _ || _); simpl in *; [discriminate|].
  destruct (nonempty (wf_vehicleNumber f)); simpl in *; [|discriminate].
  destruct (nonempty (wf_color f)); simpl in *; [|discriminate].
  destruct (nonempty (wf_chassisNumber f)); simpl in *; [|discriminate].
  destruct (nonempty (wf_engineNumber f)); simpl in *; [|discriminate].
  destruct (isNaN (wf_purchasePrice f) || _); simpl in *; [discriminate|].
  unfold loadWheels. run. rewrite Hws. run. exec. rewrite Hid, Hedit. exec.
  rewrite run_wheel_records.
  assert (list_find (λ x, wheel_id x = wf_wheelId f) ws = None) as ->.
  { apply list_find_None, Forall_forall. intros x Hx Heq. apply Habsent.
    rewrite <- Heq. apply list_elem_of_fmap. by exists x. }
  run. exec. apply (run_refresh _ ws ss).
  - unfold has_wheels. by rewrite stored_World.
  - unfold has_sales. by rewrite stored_World.
Qed.

(** C5, as amended: for an id that no wheel of the collection has, neither
    operation reports that the wheel was not found.  An update in edit mode
    leaves the storage as it is; with values that pass the checks it shows
    nothing at all.  A deletion that the user confirms writes the wheel
    list back with the records it had and, when no sale references the id,
    touches nothing else and reports success.  The wheel list is assumed to
    be read back as it was written, for the page that is drawn again. *)
Theorem absent_wheel (v : string) (w : world) (ws : list (Wheel num))
    (ss : list (Sale num)) (f : WheelForm) (newId today : string)
    (sure cascade : bool) :
  has_wheels w ws →
  has_sales w ss →
  v ∉ map wheel_id ws →
  persists (wheels_json ws) →
  (wf_wheelId f = v → nonempty v = true →
   from_option nonempty false (editingWheelId w) = true →
   (handleWheelSubmit f newId today w).2 = Ok tt
   ∧ localStorage (handleWheelSubmit f newId today w).1 = localStorage w
   ∧ (wheel_form_valid f = true →
      handleWheelSubmit f newId today w = (World (localStorage w) None (dialogs w), Ok tt)))
  ∧ (localStorage (deleteWheel v sure cascade w).1 !! "threeWheel_items"
       = localStorage w !! "threeWheel_items"
     ∨ localStorage (deleteWheel v sure cascade w).1 !! "threeWheel_items"
       = Some (JSON_stringify (wheels_json ws)))
  ∧ (v ∉ map sale_wheelId ss →
     deleteWheel v true cascade w =
     (World
        (<["threeWheel_items" := JSON_stringify (wheels_json ws)]> (localStorage w))
        (editingWheelId w)
        (dialogs w ++
           [Confirm
              "Are you sure you want to delete this wheel? This action cannot be undone."
              true;
            Alert "Wheel deleted successfully"]),
      Ok tt)).
Proof.
  intros Hws Hss Habsent Pws.
  assert (List.filter (λ x, negb (String.eqb (wheel_id x) v)) ws = ws) as Hsame
    by by apply existsb_false_filter, existsb_wheel_id.
  split; [|split].
  - intros <- Hid Hedit. destruct (wheel_form_valid f) eqn:Hvalid.
    + by rewrite (handleWheelSubmit_absent f newId today w ws ss).
    + by destruct (handleWheelSubmit_invalid f newId today w Hvalid) as [message ->].
  - rewrite (deleteWheel_storage v sure cascade w ws ss Hws Hss). cbv zeta.
    rewrite Hsame.
    destruct sure, (existsb _ ss), cascade; simpl;
      rewrite ?lookup_insert_eq; auto.
  - intros Hnone%existsb_sale_wheelId.
    assert (List.filter (λ x, negb (String.eqb (sale_wheelId x) v)) ss = ss) as Hkept
      by by apply existsb_false_filter.
    unfold deleteWheel, loadWheels, loadSales. run. exec. run.
    rewrite Hws. run. rewrite Hss. run. rewrite Hnone. run. exec. rewrite Hsame.
    erewrite run_refresh.
    + exec. by rewrite <- !app_assoc.
    + by apply stored_insert_eq.
    + unfold has_sales. rewrite stored_insert_ne by done. by rewrite stored_World.
Qed.

End Wheels.

(** ** Loading a collection *)

Section Loading.
Context {num : Type} `{!JsNumber num, !JsonText num}.

(** C4, as amended: each of the two loads returns the empty list when its
    key holds nothing or the empty text, and throws the [SyntaxError] of
    [JSON.parse] when the text under its key cannot be parsed; it has no
    handler of its own for that.  The storage is not changed. *)
Theorem load_malformed (w : world) :
  (localStorage w !! "threeWheel_items" = None
   ∨ localStorage w !! "threeWheel_items" = Some "" →
   loadWheels w = (w, Ok (JArr [])))
  ∧ (localStorage w !! "threeWheel_sales" = None
     ∨ localStorage w !! "threeWheel_sales" = Some "" →
     loadSales w = (w, Ok (JArr [])))
  ∧ (∀ text, localStorage w !! "threeWheel_items" = Some text →
     nonempty text = true → JSON_parse text = None →
     loadWheels w = (w, Throw SyntaxError))
  ∧ (∀ text, localStorage w !! "threeWheel_sales" = Some text →
     nonempty text = true → JSON_parse text = None →
     loadSales w = (w, Throw SyntaxError)).
Proof.
  unfold loadWheels, loadSales. rewrite !run_load, !stored_eq.
  split; [|split; [|split]].
  - by intros [-> | ->].
  - by intros [-> | ->].
  - by intros text -> -> ->.
  - by intros text -> -> ->.
Qed.

End Loading.

(** ** The report *)

Section Report.
Context {num : Type} `{!JsNumber num, !JsonText num}.

Lemma List_filter_filter {A} (p q : A → bool) (l : list A) :
  List.filter q (List.filter p l) = List.filter (λ x, p x && q x) l.
Proof.
  induction l as [|x l IH]; simpl; [done|].
  destruct (p x); simpl; [|done]. destruct (q x); by rewrite IH.
Qed.

Lemma List_filter_sublist {A} (p : A → bool) (l : list A) :
  List.filter p l `sublist_of` l.
Proof.
  induction l as [|x l IH]; simpl; [done|].
  destruct (p x); by constructor.
Qed.

Lemma fold_left_map {A B C} (g : C → B → C) (h : A → B) (l : list A) (z : C) :
  fold_left (λ acc x, g acc (h x)) l z = fold_left g (map h l) z.
Proof. revert z. induction l as [|x l IH]; simpl; [done|]. intros z. apply IH. Qed.

(** The two filters of [renderReport], one after the other, keep the sales
    in the range of the specification. *)
Lemma filter_range (fromDate toDate : string) (ss : list (Sale num)) :
  (let filteredSales := ss in
   let filteredSales :=
     if nonempty fromDate
     then List.filter (λ sale, String.leb fromDate (sale_saleDate sale)) filteredSales
     else filteredSales in
   if nonempty toDate
   then List.filter (λ sale, String.leb (sale_saleDate sale) toDate) filteredSales
   else filteredSales)
  = List.filter (spec_in_range fromDate toDate) ss.
Proof.
  unfold spec_in_range. cbv zeta.
  destruct (nonempty fromDate), (nonempty toDate); simpl.
  - apply List_filter_filter.
  - apply filter_ext. intros sale. by rewrite andb_true_r.
  - done.
  - induction ss as [|sale ss IH]; simpl; [done|]. by rewrite <- IH.
Qed.

(** What [renderReport] computes from the two collections. *)
Lemma renderReport_run (fromDate toDate : string) (w : world)
    (ws : list (Wheel num)) (ss : list (Sale num)) :
  has_wheels w ws →
  has_sales w ss →
  renderReport fromDate toDate w =
  let rows := map (enrich ws) (List.filter (spec_in_range fromDate toDate) ss) in
  (w, Ok (rows,
          if Nat.eqb (length rows) 0 then None
          else
            let totalRevenue :=
              fold_left (λ sum item, nadd sum (sale_sellingPrice (row_sale item)))
                rows (nconst 0) in
            let totalCost :=
              fold_left (λ sum item, nadd sum (row_purchasePrice item)) rows (nconst 0) in
            Some {| count := length rows; totalRevenue := totalRevenue;
                    totalCost := totalCost;
                    totalProfit := nsub totalRevenue totalCost |})).
Proof.
  unfold has_wheels, has_sales. intros Hws Hss.
  unfold renderReport, loadWheels, loadSales. run. rewrite Hss. run. rewrite Hws. run.
  rewrite filter_range. cbv zeta.
  by destruct (Nat.eqb _ 0).
Qed.

Lemma row_sale_enrich (ws : list (Wheel num)) (ss : list (Sale num)) :
  map row_sale (map (enrich ws) ss) = ss.
Proof. induction ss as [|sale ss IH]; simpl; [done|]. by rewrite IH. Qed.

(** C6: the rows of a report are the sales of the collection whose date is
    in the range, compared as strings character by character, where a bound
    that is empty does not count; they come in the order of the collection,
    one row for each such sale.  The report changes nothing. *)
Theorem report_rows_in_range (fromDate toDate : string) (w : world)
    (ws : list (Wheel num)) (ss : list (Sale num)) :
  has_wheels w ws →
  has_sales w ss →
  ∃ rows summary,
    renderReport fromDate toDate w = (w, Ok (rows, summary))
    ∧ rows = map (enrich ws) (List.filter (spec_in_range fromDate toDate) ss)
    ∧ map row_sale rows = List.filter (spec_in_range fromDate toDate) ss
    ∧ map row_sale rows `sublist_of` ss
    ∧ (∀ sale, sale ∈ map row_sale rows ↔
         sale ∈ ss
         ∧ (nonempty fromDate = true → String.leb fromDate (sale_saleDate sale) = true)
         ∧ (nonempty toDate = true → String.leb (sale_saleDate sale) toDate = true)).
Proof.
  intros Hws Hss. rewrite (renderReport_run fromDate toDate w ws ss Hws Hss). cbv zeta.
  eexists _, _. split; [reflexivity|]. split; [reflexivity|].
  rewrite row_sale_enrich.
  split; [reflexivity|]. split; [apply List_filter_sublist|].
  intros sale. rewrite elem_of_List_filter. unfold spec_in_range.
  destruct (nonempty fromDate), (nonempty toDate); simpl;
    rewrite ?andb_true_iff, ?andb_true_r; intuition (auto; discriminate).
Qed.

Lemma find_wheel_Some (v : string) (ws : list (Wheel num)) (wheel : Wheel num) :
  List.find (λ x, String.eqb (wheel_id x) v) ws = Some wheel →
  wheel ∈ ws ∧ wheel_id wheel = v.
Proof.
  intros [Hin Heq]%find_some. split; [by apply list_elem_of_In|].
  by apply String.eqb_eq.
Qed.

Lemma find_wheel_None (v : string) (ws : list (Wheel num)) :
  List.find (λ x, String.eqb (wheel_id x) v) ws = None ↔ v ∉ map wheel_id ws.
Proof.
  rewrite <- existsb_wheel_id.
  induction ws as [|x ws IH]; simpl; [done|].
  destruct (String.eqb (wheel_id x) v); simpl; [done|]. apply IH.
Qed.

(** The row of one sale. *)
Lemma enrich_joins (ws : list (Wheel num)) (sale : Sale num) :
  (∀ x : num, nsub x (nconst 0) = x) →
  row_sale (enrich ws sale) = sale
  ∧ row_profit (enrich ws sale)
    = nsub (sale_sellingPrice sale) (row_purchasePrice (enrich ws sale))
  ∧ ((∃ wheel, wheel ∈ ws ∧ wheel_id wheel = sale_wheelId sale) →
     ∃ wheel, wheel ∈ ws ∧ wheel_id wheel = sale_wheelId sale
       ∧ row_wheel (enrich ws sale) = Some wheel
       ∧ row_model (enrich ws sale) = wheel_model wheel
       ∧ row_purchasePrice (enrich ws sale) = wheel_purchasePrice wheel)
  ∧ (sale_wheelId sale ∉ map wheel_id ws →
     row_wheel (enrich ws sale) = None
     ∧ row_model (enrich ws sale) = "Unknown"
     ∧ row_purchasePrice (enrich ws sale) = nconst 0).
Proof.
  intros Hzero. unfold enrich. simpl.
  destruct (List.find _ ws) as [wheel|] eqn:Hfind.
  - apply find_wheel_Some in Hfind as [Hin Hid].
    split; [done|]. split; [done|]. split.
    + intros _. by exists wheel.
    + intros Hno. destruct Hno. rewrite <- Hid. apply list_elem_of_fmap. by exists wheel.
  - apply find_wheel_None in Hfind.
    split; [done|]. split; [by rewrite Hzero|]. split; [|done].
    intros (wheel & Hin & Hid). destruct Hfind. rewrite <- Hid.
    apply list_elem_of_fmap. by exists wheel.
Qed.

(** C7: the report is produced whether or not the wheels of the sales
    exist, and it has one row for each sale in its range, in the order of
    the collection: a sale whose wheel is missing is not left out.  The row
    of a sale whose wheel is in the collection carries the model and the
    purchase price of that wheel; the row of a sale whose wheel is missing
    carries the model ["Unknown"] and the purchase price 0.  In both cases
    the profit is the selling price minus the purchase price of the row.
    For the second case this uses that subtracting 0 from a number gives
    the number, as it does for the numbers of JavaScript. *)
Theorem report_row_join (fromDate toDate : string) (w : world)
    (ws : list (Wheel num)) (ss : list (Sale num)) :
  has_wheels w ws →
  has_sales w ss →
  (∀ x : num, nsub x (nconst 0) = x) →
  ∃ rows summary,
    renderReport fromDate toDate w = (w, Ok (rows, summary))
    ∧ map row_sale rows = List.filter (spec_in_range fromDate toDate) ss
    ∧ (∀ sale, sale ∈ ss → spec_in_range fromDate toDate sale = true →
       ∃ row, row ∈ rows ∧ row_sale row = sale)
    ∧ ∀ row, row ∈ rows →
        row_sale row ∈ ss
        ∧ row_profit row
          = nsub (sale_sellingPrice (row_sale row)) (row_purchasePrice row)
        ∧ ((∃ wheel, wheel ∈ ws ∧ wheel_id wheel = sale_wheelId (row_sale row)) →
           ∃ wheel, wheel ∈ ws ∧ wheel_id wheel = sale_wheelId (row_sale row)
             ∧ row_wheel row = Some wheel
             ∧ row_model row = wheel_model wheel
             ∧ row_purchasePrice row = wheel_purchasePrice wheel)
        ∧ (sale_wheelId (row_sale row) ∉ map wheel_id ws →
           row_wheel row = None
           ∧ row_model row = "Unknown"
           ∧ row_purchasePrice row = nconst 0).
Proof.
  intros Hws Hss Hzero.
  rewrite (renderReport_run fromDate toDate w ws ss Hws Hss). cbv zeta.
  eexists _, _. split; [reflexivity|].
  split; [apply row_sale_enrich|].
  split.
  { intros sale Hsale Hrange. exists (enrich ws sale). split; [|done].
    apply list_elem_of_fmap. exists sale. split; [done|].
    by apply elem_of_List_filter. }
  intros row (sale & -> & Hsale)%list_elem_of_fmap.
  apply elem_of_List_filter in Hsale as [Hsale _].
  destruct (enrich_joins ws sale Hzero) as (Hrow & Hprofit & Hfound & Hmissing).
  rewrite Hrow. split; [done|]. split; [done|]. by split.
Qed.

(** C8, as amended: a report without date bounds has one row for each sale
    of the collection, in its order.  When the collection has no sale the
    function returns before the totals and there is no summary; otherwise
    the count is the number of rows, the total revenue and the total cost
    are the sums, from 0 and from the left, of the selling prices and of the
    purchase prices of the rows, and the total profit is the total revenue
    minus the total cost. *)
Theorem report_without_bounds (w : world) (ws : list (Wheel num))
    (ss : list (Sale num)) :
  has_wheels w ws →
  has_sales w ss →
  ∃ rows summary,
    renderReport "" "" w = (w, Ok (rows, summary))
    ∧ map row_sale rows = ss
    ∧ length rows = length ss
    ∧ match summary with
      | None => ss = []
      | Some total =>
          ss ≠ []
          ∧ count total = length rows
          ∧ totalRevenue total
            = fold_left nadd (map (λ row, sale_sellingPrice (row_sale row)) rows) (nconst 0)
          ∧ totalCost total = fold_left nadd (map row_purchasePrice rows) (nconst 0)
          ∧ totalProfit total = nsub (totalRevenue total) (totalCost total)
      end.
Proof.
  intros Hws Hss. rewrite (renderReport_run "" "" w ws ss Hws Hss). cbv zeta.
  assert (List.filter (spec_in_range "" "") ss = ss) as ->.
  { clear. induction ss as [|sale ss IH]; simpl; [done|]. by rewrite IH. }
  eexists _, _. split; [reflexivity|].
  split; [apply row_sale_enrich|]. split; [by rewrite length_map|].
  destruct ss as [|sale ss]; simpl; [done|].
  split; [done|]. split; [done|].
  by rewrite <- !fold_left_map.
Qed.

End Report.

(** ** One sale for a wheel *)

Section Invariant.
Context {num : Type} `{!JsNumber num, !JsonText num}.

(** C1, as amended: recording a sale keeps the rule that a wheel has at
    most one sale, when the collection satisfied it before.  An import does
    not check the rule: the list of sales in the imported text becomes the
    sale collection as it is, so that after an import the rule holds only
    if it holds of the imported list.  The lists the program writes are
    assumed to be read back as they were written. *)
Theorem record_sale_keeps_one_sale_per_wheel :
  (∀ (w : world) (ss : list (Sale num)) (f : SaleForm) (newId : string),
     has_sales w ss →
     one_sale_per_wheel ss →
     persists (sales_json (ss ++ [sale_of_form f newId])) →
     ∃ ss', has_sales (handleSaleSubmit f newId w).1 ss' ∧ one_sale_per_wheel ss')
  ∧ (∀ (w : world) (text : string) (imported : list (Sale num)),
       spec_imported_list text "sales" = Some (sales_json imported) →
       persists (sales_json imported) →
       has_sales (handleFileImport (Some text) true w).1 imported).
Proof.
  split.
  - intros w ss f newId Hss Hone Hpersists.
    destruct (sale_form_valid f) eqn:Hvalid.
    + destruct (existsb (λ sale, String.eqb (sale_wheelId sale) (sf_wheelId f)) ss)
        eqn:Hsold.
      * rewrite (handleSaleSubmit_sold f newId w ss Hvalid Hss Hsold).
        exists ss. split; [by apply has_sales_shown | done].
      * rewrite (handleSaleSubmit_recorded f newId w ss Hvalid Hss Hsold).
        exists (ss ++ [sale_of_form f newId])%list. split.
        -- unfold has_sales. rewrite stored_insert_ne by done.
           by apply stored_insert_eq.
        -- unfold one_sale_per_wheel. rewrite map_app. simpl.
           apply NoDup_app. split; [done|]. split; [|apply NoDup_singleton].
           intros v Hv ->%list_elem_of_singleton.
           by apply existsb_sale_wheelId in Hsold.
    + destruct (handleSaleSubmit_invalid f newId w Hvalid) as [message ->].
      exists ss. split; [by apply has_sales_shown | done].
  - intros w text imported Himported Hpersists.
    destruct (handleFileImport_storage text w) as [_ Hls].
    rewrite Himported in Hls. cbv zeta in Hls.
    set (w' := (handleFileImport _ true w).1) in *.
    unfold has_sales.
    rewrite (stored_storage _ w' (World (localStorage w') None [])) by done.
    rewrite Hls. by apply stored_insert_eq.
Qed.

End Invariant.

(** * Properties of the rest of the program *)

(** Unfolds the operations of the monad, also those of the rest of the
    program. *)
#[local] Ltac exec_rest :=
  cbv beta iota zeta delta
    [mbind M_bind mret M_ret throw try_catch getItem setItem removeItem showAlert
     confirmAction set_editingWheelId get_editingWheelId resetWheelForm
     saveWheels saveSales get_prop parse shown getAdminToggle saveAdminToggle
     seedDemoData sale_record];
  cbn [negb andb orb localStorage editingWheelId dialogs fst snd].

Section Toggle.
Context {num : Type} `{!JsNumber num, !JsonText num}.

(** X1: the admin toggle is read back as it was saved, saving it leaves
    the two collections as they were, and it is off as long as nothing is
    stored under its key. *)
Theorem admin_toggle_round_trip (state : bool) (w : world) :
  getAdminToggle (saveAdminToggle state w).1 = ((saveAdminToggle state w).1, Ok state)
  ∧ stored (num := num) "threeWheel_items" (saveAdminToggle state w).1
    = stored "threeWheel_items" w
  ∧ stored (num := num) "threeWheel_sales" (saveAdminToggle state w).1
    = stored "threeWheel_sales" w
  ∧ (localStorage w !! "threeWheel_adminToggle" = None →
     getAdminToggle w = (w, Ok false)).
Proof.
  split; [|split; [|split]].
  - exec_rest. rewrite lookup_insert_eq. by destruct state.
  - exec_rest. rewrite stored_insert_ne by done. apply stored_World.
  - exec_rest. rewrite stored_insert_ne by done. apply stored_World.
  - intros Hnone. exec_rest. by rewrite Hnone.
Qed.

End Toggle.

Section Availability.
Context {num : Type} `{!JsNumber num, !JsonText num}.

Lemma run_getAvailableWheels (w : world) (ws : list (Wheel num)) (ss : list (Sale num)) :
  has_wheels w ws → has_sales w ss →
  getAvailableWheels w = (w, Ok (List.filter (unsold ss) ws)).
Proof.
  unfold has_wheels, has_sales. intros Hws Hss.
  unfold getAvailableWheels, loadWheels, loadSales.
  run. rewrite Hws. run. rewrite Hss. run. exec. do 2 f_equal.
  apply filter_ext. intros wheel. unfold unsold. f_equal.
  destruct (existsb _ ss) eqn:Hsold.
  - apply bool_decide_eq_true. apply elem_of_list_to_set.
    apply not_false_iff_true in Hsold.
    destruct (decide (wheel_id wheel ∈ map sale_wheelId ss)) as [|Hno]; [done|].
    by apply existsb_sale_wheelId in Hno.
  - apply bool_decide_eq_false. rewrite elem_of_list_to_set.
    by apply existsb_sale_wheelId.
Qed.

(** X2: the wheels offered for sale are the wheels of the collection that
    no sale references, in the order of the collection; the set of sold ids
    is the set of the ids the sales reference. *)
Theorem available_wheels_are_the_unsold (w : world) (ws : list (Wheel num))
    (ss : list (Sale num)) :
  has_wheels w ws →
  has_sales w ss →
  ∃ available soldIds,
    getAvailableWheels w = (w, Ok available)
    ∧ getSoldWheelIds w = (w, Ok soldIds)
    ∧ available `sublist_of` ws
    ∧ (∀ v, v ∈ soldIds ↔ v ∈ map sale_wheelId ss)
    ∧ (∀ wheel, wheel ∈ available ↔ wheel ∈ ws ∧ wheel_id wheel ∉ soldIds).
Proof.
  intros Hws Hss. eexists _, _.
  split; [by apply run_getAvailableWheels|].
  split.
  { unfold getSoldWheelIds, loadSales. run. rewrite Hss. by run. }
  split; [apply List_filter_sublist|].
  split; [intros v; apply elem_of_list_to_set|].
  intros wheel. rewrite elem_of_List_filter, elem_of_list_to_set. unfold unsold.
  by rewrite negb_true_iff, existsb_sale_wheelId.
Qed.

(** X3: a wheel taken from the list of available wheels is sold when the
    form passes the checks: the sale is appended to the collection, the
    wheels are not written, and the collection keeps at most one sale for
    a wheel and only sales of wheels that exist, if it did before. *)
Theorem available_wheel_is_sold (w : world) (ws available : list (Wheel num))
    (ss : list (Sale num)) (wheel : Wheel num) (f : SaleForm) (newId : string) :
  has_wheels w ws →
  has_sales w ss →
  getAvailableWheels w = (w, Ok available) →
  wheel ∈ available →
  sf_wheelId f = wheel_id wheel →
  sale_form_valid f = true →
  persists (sales_json (ss ++ [sale_of_form f newId])) →
  has_sales (handleSaleSubmit f newId w).1 (ss ++ [sale_of_form f newId])
  ∧ has_wheels (handleSaleSubmit f newId w).1 ws
  ∧ (one_sale_per_wheel ss → one_sale_per_wheel (ss ++ [sale_of_form f newId]))
  ∧ ((∀ sale, sale ∈ ss → sale_wheelId sale ∈ map wheel_id ws) →
     ∀ sale, sale ∈ (ss ++ [sale_of_form f newId])%list →
             sale_wheelId sale ∈ map wheel_id ws).
Proof.
  intros Hws Hss Havailable Hwheel Hid Hvalid Hpersists.
  rewrite (run_getAvailableWheels w ws ss Hws Hss) in Havailable.
  injection Havailable as <-.
  apply elem_of_List_filter in Hwheel as [Hin Hunsold].
  unfold unsold in Hunsold. rewrite negb_true_iff, <- Hid in Hunsold.
  rewrite (handleSaleSubmit_recorded f newId w ss Hvalid Hss Hunsold).
  split; [|split; [|split]].
  - unfold has_sales. rewrite stored_insert_ne by done. by apply stored_insert_eq.
  - unfold has_wheels. rewrite !stored_insert_ne by done. by rewrite stored_World.
  - intros Hone. unfold one_sale_per_wheel. rewrite map_app. simpl.
    apply NoDup_app. split; [done|]. split; [|apply NoDup_singleton].
    intros v Hv ->%list_elem_of_singleton. by apply existsb_sale_wheelId in Hunsold.
  - intros Hrefs sale [Hold | ->%list_elem_of_singleton]%elem_of_app; [by apply Hrefs|].
    simpl. rewrite Hid. apply list_elem_of_fmap. by exists wheel.
Qed.

(** X4: after a sale has been recorded, the wheel of the form is not
    offered any more, and the other wheels are offered as before. *)
Theorem sold_wheel_leaves_the_list (w : world) (ws : list (Wheel num))
    (ss : list (Sale num)) (f : SaleForm) (newId : string) :
  has_wheels w ws →
  has_sales w ss →
  sale_form_valid f = true →
  existsb (λ sale, String.eqb (sale_wheelId sale) (sf_wheelId f)) ss = false →
  persists (sales_json (ss ++ [sale_of_form f newId])) →
  ∃ before after,
    getAvailableWheels w = (w, Ok before)
    ∧ getAvailableWheels (handleSaleSubmit f newId w).1
      = ((handleSaleSubmit f newId w).1, Ok after)
    ∧ after = List.filter (λ wheel, negb (String.eqb (wheel_id wheel) (sf_wheelId f))) before
    ∧ (sf_wheelId f ∉ map wheel_id after).
Proof.
  intros Hws Hss Hvalid Hunsold Hpersists.
  assert (has_sales (handleSaleSubmit f newId w).1 (ss ++ [sale_of_form f newId])) as Hss'.
  { rewrite (handleSaleSubmit_recorded f newId w ss Hvalid Hss Hunsold).
    unfold has_sales. rewrite stored_insert_ne by done. by apply stored_insert_eq. }
  assert (has_wheels (handleSaleSubmit f newId w).1 ws) as Hws'.
  { rewrite (handleSaleSubmit_recorded f newId w ss Hvalid Hss Hunsold).
    unfold has_wheels. rewrite !stored_insert_ne by done. by rewrite stored_World. }
  eexists _, _.
  split; [by apply run_getAvailableWheels|].
  split; [by apply run_getAvailableWheels|].
  assert (List.filter (unsold (ss ++ [sale_of_form f newId])) ws
          = List.filter (λ wheel, negb (String.eqb (wheel_id wheel) (sf_wheelId f)))
              (List.filter (unsold ss) ws)) as ->.
  { rewrite List_filter_filter. apply filter_ext. intros wheel. unfold unsold.
    rewrite existsb_app. simpl. rewrite orb_false_r, negb_orb.
    by rewrite (String.eqb_sym (sf_wheelId f)). }
  split; [done|].
  apply existsb_wheel_id, existsb_filter_negb.
Qed.

(** X5: once a sale has been recorded for a wheel, every further form for
    that wheel that passes the checks is refused, and the refusal writes
    nothing. *)
Theorem second_sale_is_refused (w : world) (ss : list (Sale num)) (f g : SaleForm)
    (newId nextId : string) :
  has_sales w ss →
  sale_form_valid f = true →
  existsb (λ sale, String.eqb (sale_wheelId sale) (sf_wheelId f)) ss = false →
  persists (sales_json (ss ++ [sale_of_form f newId])) →
  sale_form_valid g = true →
  sf_wheelId g = sf_wheelId f →
  handleSaleSubmit g nextId (handleSaleSubmit f newId w).1
  = (shown (Alert "This wheel has already been sold") (handleSaleSubmit f newId w).1,
     Ok tt).
Proof.
  intros Hss Hvalid Hunsold Hpersists Hvalid' Hsame.
  apply (handleSaleSubmit_sold g nextId _ (ss ++ [sale_of_form f newId])); [done| |].
  - rewrite (handleSaleSubmit_recorded f newId w ss Hvalid Hss Hunsold).
    unfold has_sales. rewrite stored_insert_ne by done. by apply stored_insert_eq.
  - rewrite existsb_app, Hsame. simpl. by rewrite String.eqb_refl, orb_true_r.
Qed.

End Availability.

Section WheelForms.
Context {num : Type} `{!JsNumber num, !JsonText num}.

(** What [handleWheelSubmit] does with a form that passes the checks. *)
Lemma handleWheelSubmit_valid (f : WheelForm) (newId today : string) (w : world)
    (ws : list (Wheel num)) :
  wheel_form_valid f = true →
  has_wheels w ws →
  let w' :=
    if nonempty (wf_wheelId f) && from_option nonempty false (editingWheelId w) then
      match list_find (λ x, wheel_id x = wf_wheelId f) ws with
      | Some (i, old) =>
          World
            (<["threeWheel_items" :=
                 JSON_stringify (wheels_json (<[i := updated_wheel f old]> ws))]>
               (localStorage w))
            None (dialogs w ++ [Alert "Wheel updated successfully"])
      | None => World (localStorage w) None (dialogs w)
      end
    else
      World
        (<["threeWheel_items" :=
             JSON_stringify (wheels_json (ws ++ [new_wheel f newId today]))]>
           (localStorage w))
        None (dialogs w ++ [Alert "Wheel added successfully"]) in
  handleWheelSubmit f newId today w = (w', (refresh w').2).
Proof.
  unfold handleWheelSubmit, wheel_form_valid, has_wheels.
  intros Hvalid Hws.
  destruct (nonempty (wf_model f)); simpl in *; [|discriminate].
  destruct (isNaN (wf_year f) || _ || _); simpl in *; [discriminate|].
  destruct (nonempty (wf_vehicleNumber f)); simpl in *; [|discriminate].
  destruct (nonempty (wf_color f)); simpl in *; [|discriminate].
  destruct (nonempty (wf_chassisNumber f)); simpl in *; [|discriminate].
  destruct (nonempty (wf_engineNumber f)); simpl in *; [|discriminate].
  destruct (isNaN (wf_purchasePrice f) || _); simpl in *; [discriminate|].
  unfold loadWheels. run. rewrite Hws. run. exec.
  destruct (nonempty (wf_wheelId f) && _); exec; rewrite run_wheel_records.
  - destruct (list_find _ ws) as [[i old]|]; exec; by rewrite refresh_eq.
  - by rewrite refresh_eq.
Qed.

(** X6: a form that passes the checks and is not the form of an edit adds
    a wheel: the new wheel, with the generated id and the date of the day,
    comes after the wheels of the collection, which stay as they are; the
    sales are not written, and the edit mode is off afterwards. *)
Theorem add_wheel_appends (f : WheelForm) (newId today : string) (w : world)
    (ws : list (Wheel num)) (ss : list (Sale num)) :
  has_wheels w ws →
  has_sales w ss →
  wheel_form_valid f = true →
  nonempty (wf_wheelId f) && from_option nonempty false (editingWheelId w) = false →
  persists (wheels_json (ws ++ [new_wheel f newId today])) →
  handleWheelSubmit f newId today w
  = (World
       (<["threeWheel_items" :=
            JSON_stringify (wheels_json (ws ++ [new_wheel f newId today]))]>
          (localStorage w))
       None (dialogs w ++ [Alert "Wheel added successfully"]),
     Ok tt)
  ∧ has_wheels (handleWheelSubmit f newId today w).1 (ws ++ [new_wheel f newId today])
  ∧ has_sales (handleWheelSubmit f newId today w).1 ss.
Proof.
  intros Hws Hss Hvalid Hmode Hpersists.
  rewrite (handleWheelSubmit_valid f newId today w ws Hvalid Hws). cbv zeta.
  rewrite Hmode.
  assert (has_wheels
            (World
               (<["threeWheel_items" :=
                    JSON_stringify (wheels_json (ws ++ [new_wheel f newId today]))]>
                  (localStorage w))
               None (dialogs w ++ [Alert "Wheel added successfully"]))
            (ws ++ [new_wheel f newId today])) as Hws'
    by by apply stored_insert_eq.
  assert (has_sales
            (World
               (<["threeWheel_items" :=
                    JSON_stringify (wheels_json (ws ++ [new_wheel f newId today]))]>
                  (localStorage w))
               None (dialogs w ++ [Alert "Wheel added successfully"]))
            ss) as Hss'.
  { unfold has_sales. rewrite stored_insert_ne by done. by rewrite stored_World. }
  by rewrite (run_refresh _ _ _ Hws' Hss').
Qed.

Lemma list_find_List_find (v : string) (ws : list (Wheel num)) (i : nat)
    (old : Wheel num) :
  list_find (λ x, wheel_id x = v) ws = Some (i, old) →
  List.find (λ x, String.eqb (wheel_id x) v) ws = Some old.
Proof.
  revert i. induction ws as [|x ws IH]; intros i; [done|].
  cbn. destruct (decide (wheel_id x = v)) as [Heq|Hne].
  - intros [= <- <-]. by rewrite (proj2 (String.eqb_eq _ _) Heq).
  - rewrite (proj2 (String.eqb_neq _ _) Hne).
    destruct (list_find _ ws) as [[j y]|] eqn:Hfind; [|done].
    intros [= <- <-]. by apply (IH j).
Qed.

(** X7: the edit of a wheel of the collection, followed by a form for its
    id that passes the checks, replaces the first wheel with that id where
    it stands.  The number of wheels, their ids and their dates of addition
    stay as they are, so does every other wheel, and the sales are not
    written. *)
Theorem edit_then_update (v : string) (f : WheelForm) (newId today : string)
    (w : world) (ws : list (Wheel num)) (ss : list (Sale num)) (i : nat)
    (old : Wheel num) :
  has_wheels w ws →
  has_sales w ss →
  list_find (λ x, wheel_id x = v) ws = Some (i, old) →
  nonempty v = true →
  wf_wheelId f = v →
  wheel_form_valid f = true →
  persists (wheels_json (<[i := updated_wheel f old]> ws)) →
  editWheel v w = (World (localStorage w) (Some v) (dialogs w), Ok tt)
  ∧ handleWheelSubmit f newId today (editWheel v w).1
    = (World
         (<["threeWheel_items" :=
              JSON_stringify (wheels_json (<[i := updated_wheel f old]> ws))]>
            (localStorage w))
         None (dialogs w ++ [Alert "Wheel updated successfully"]),
       Ok tt)
  ∧ has_sales (handleWheelSubmit f newId today (editWheel v w).1).1 ss
  ∧ length (<[i := updated_wheel f old]> ws) = length ws
  ∧ map wheel_id (<[i := updated_wheel f old]> ws) = map wheel_id ws
  ∧ map wheel_addedDate (<[i := updated_wheel f old]> ws) = map wheel_addedDate ws
  ∧ <[i := updated_wheel f old]> ws !! i = Some (updated_wheel f old)
  ∧ (∀ j, j ≠ i → <[i := updated_wheel f old]> ws !! j = ws !! j).
Proof.
  intros Hws Hss Hfind Hv Hid Hvalid Hpersists.
  assert (ws !! i = Some old) as Hi by by apply list_find_Some in Hfind as [? _].
  assert (editWheel v w = (World (localStorage w) (Some v) (dialogs w), Ok tt)) as Hedit.
  { unfold editWheel, loadWheels. run. rewrite Hws. run.
    by rewrite (list_find_List_find v ws i old Hfind). }
  rewrite Hedit. cbn [fst].
  set (w1 := World (localStorage w) (Some v) (dialogs w)).
  assert (has_wheels w1 ws) as Hws1 by (unfold has_wheels, w1; by rewrite stored_World).
  rewrite (handleWheelSubmit_valid f newId today w1 ws Hvalid Hws1). cbv zeta.
  rewrite Hid, Hv. cbn [w1 editingWheelId from_option andb localStorage dialogs].
  rewrite Hv, Hfind.
  set (w2 := World _ None _).
  assert (has_wheels w2 (<[i := updated_wheel f old]> ws)) as Hws2
    by by apply stored_insert_eq.
  assert (has_sales w2 ss) as Hss2.
  { unfold has_sales, w2. rewrite stored_insert_ne by done. by rewrite stored_World. }
  rewrite (run_refresh _ _ _ Hws2 Hss2).
  split; [done|]. split; [done|]. split; [done|].
  split; [apply length_insert|].
  split; [by rewrite list_fmap_insert, list_insert_id by by rewrite list_lookup_fmap, Hi|].
  split; [by rewrite list_fmap_insert, list_insert_id by by rewrite list_lookup_fmap, Hi|].
  split; [apply list_lookup_insert_eq; by eapply lookup_lt_Some|].
  intros j Hj. by apply list_lookup_insert_ne.
Qed.

(** X8: the edit of an id that no wheel of the collection has is answered
    with the alert that the wheel was not found; the edit mode and the
    storage stay as they are. *)
Theorem edit_absent_wheel (v : string) (w : world) (ws : list (Wheel num)) :
  has_wheels w ws →
  v ∉ map wheel_id ws →
  editWheel v w = (shown (Alert "Wheel not found") w, Ok tt).
Proof.
  intros Hws Habsent. unfold editWheel, loadWheels. run. rewrite Hws. run.
  by rewrite (proj2 (find_wheel_None v ws) Habsent).
Qed.

(** X9: a form that fails a check is answered with one alert, before
    anything is read from the storage: nothing is written and the edit mode
    is kept, whatever the storage holds. *)
Theorem invalid_forms_write_nothing (f : WheelForm) (g : SaleForm)
    (newId today : string) (w : world) :
  (wheel_form_valid f = false →
   ∃ message, handleWheelSubmit f newId today w = (shown (Alert message) w, Ok tt))
  ∧ (sale_form_valid g = false →
     ∃ message, handleSaleSubmit g newId w = (shown (Alert message) w, Ok tt)).
Proof.
  split.
  - apply handleWheelSubmit_invalid.
  - apply handleSaleSubmit_invalid.
Qed.

(** X10: whatever the form and the mode, [handleWheelSubmit] does not write
    the sales, and it writes the wheels only as a list that has all the ids
    the collection had, and as many wheels or one more. *)
Theorem wheel_form_keeps_the_ids (f : WheelForm) (newId today : string) (w : world)
    (ws : list (Wheel num)) :
  has_wheels w ws →
  localStorage (handleWheelSubmit f newId today w).1 !! "threeWheel_sales"
  = localStorage w !! "threeWheel_sales"
  ∧ (localStorage (handleWheelSubmit f newId today w).1 !! "threeWheel_items"
     = localStorage w !! "threeWheel_items"
     ∨ ∃ ws',
         localStorage (handleWheelSubmit f newId today w).1 !! "threeWheel_items"
         = Some (JSON_stringify (wheels_json ws'))
         ∧ (∀ v, v ∈ map wheel_id ws → v ∈ map wheel_id ws')
         ∧ (length ws' = length ws ∨ length ws' = S (length ws))).
Proof.
  intros Hws. destruct (wheel_form_valid f) eqn:Hvalid.
  - rewrite (handleWheelSubmit_valid f newId today w ws Hvalid Hws). cbv zeta. cbn [fst].
    destruct (nonempty (wf_wheelId f) && _).
    + destruct (list_find _ ws) as [[i old]|] eqn:Hfind; cbn [localStorage].
      * assert (ws !! i = Some old) as Hi by by apply list_find_Some in Hfind as [? _].
        split; [by rewrite lookup_insert_ne|]. right.
        exists (<[i := updated_wheel f old]> ws). rewrite lookup_insert_eq.
        split; [done|]. split; [|left; apply length_insert].
        intros v. by rewrite list_fmap_insert, list_insert_id
          by by rewrite list_lookup_fmap, Hi.
      * split; [done|by left].
    + cbn [localStorage]. split; [by rewrite lookup_insert_ne|]. right.
      exists (ws ++ [new_wheel f newId today])%list. rewrite lookup_insert_eq.
      split; [done|]. split.
      * intros v Hv. rewrite map_app. apply elem_of_app. by left.
      * right. rewrite length_app. simpl. lia.
  - destruct (handleWheelSubmit_invalid f newId today w Hvalid) as [message ->].
    split; [done|by left].
Qed.

End WheelForms.

Section Deleting.
Context {num : Type} `{!JsNumber num, !JsonText num}.

(** X11: the deletion of a wheel that no sale references asks one question
    only; confirmed, it writes the wheels without the wheels of that id,
    leaves the sales as they are, and reports the deletion. *)
Theorem delete_unsold_wheel (v : string) (cascade : bool) (w : world)
    (ws : list (Wheel num)) (ss : list (Sale num)) :
  has_wheels w ws →
  has_sales w ss →
  v ∉ map sale_wheelId ss →
  persists (wheels_json (List.filter (λ x, negb (String.eqb (wheel_id x) v)) ws)) →
  deleteWheel v true cascade w
  = (World
       (<["threeWheel_items" :=
            JSON_stringify
              (wheels_json (List.filter (λ x, negb (String.eqb (wheel_id x) v)) ws))]>
          (localStorage w))
       (editingWheelId w)
       (dialogs w ++
          [Confirm
             "Are you sure you want to delete this wheel? This action cannot be undone."
             true;
           Alert "Wheel deleted successfully"]),
     Ok tt)
  ∧ has_sales (deleteWheel v true cascade w).1 ss
  ∧ (v ∉ map wheel_id (List.filter (λ x, negb (String.eqb (wheel_id x) v)) ws)).
Proof.
  intros Hws Hss Hnone%existsb_sale_wheelId Hpersists.
  assert (deleteWheel v true cascade w
          = (World
               (<["threeWheel_items" :=
                    JSON_stringify
                      (wheels_json
                         (List.filter (λ x, negb (String.eqb (wheel_id x) v)) ws))]>
                  (localStorage w))
               (editingWheelId w)
               (dialogs w ++
                  [Confirm
                     "Are you sure you want to delete this wheel? This action cannot be undone."
                     true;
                   Alert "Wheel deleted successfully"]),
             Ok tt)) as Hrun.
  { unfold deleteWheel, loadWheels, loadSales. run. exec. run.
    rewrite Hws. run. rewrite Hss. run. rewrite Hnone. run. exec.
    erewrite run_refresh.
    + exec. by rewrite <- !app_assoc.
    + by apply stored_insert_eq.
    + unfold has_sales. rewrite stored_insert_ne by done. by rewrite stored_World. }
  rewrite Hrun. split; [done|]. split.
  - unfold has_sales. cbn [fst]. rewrite stored_insert_ne by done. by rewrite stored_World.
  - apply existsb_wheel_id, existsb_filter_negb.
Qed.

Lemma NoDup_map_filter {A B} (g : A → B) (p : A → bool) (l : list A) :
  NoDup (map g l) → NoDup (map g (List.filter p l)).
Proof.
  induction l as [|x l IH]; simpl; [done|].
  intros [Hx Hl]%NoDup_cons. destruct (p x); simpl; [|by apply IH].
  apply NoDup_cons. split; [|by apply IH].
  intros (y & Hy & [Hin _]%elem_of_List_filter)%list_elem_of_fmap.
  apply Hx. apply list_elem_of_fmap. by exists y.
Qed.

(** X12: whatever the answers of the user, [deleteWheel] keeps the two
    rules of the collections: if no wheel had two sales and every sale was
    the sale of a wheel of the collection before, the same holds of the
    collections afterwards. *)
Theorem delete_keeps_the_rules (v : string) (sure cascade : bool) (w : world)
    (ws : list (Wheel num)) (ss : list (Sale num)) :
  has_wheels w ws →
  has_sales w ss →
  one_sale_per_wheel ss →
  sales_reference_wheels ws ss →
  persists (wheels_json (List.filter (λ x, negb (String.eqb (wheel_id x) v)) ws)) →
  persists (sales_json (List.filter (λ x, negb (String.eqb (sale_wheelId x) v)) ss)) →
  ∃ ws' ss',
    has_wheels (deleteWheel v sure cascade w).1 ws'
    ∧ has_sales (deleteWheel v sure cascade w).1 ss'
    ∧ one_sale_per_wheel ss'
    ∧ sales_reference_wheels ws' ss'.
Proof.
  intros Hws Hss Hone Hrefs Pws Pss.
  pose proof (deleteWheel_storage v sure cascade w ws ss Hws Hss) as Hls. cbv zeta in Hls.
  set (w' := (deleteWheel v sure cascade w).1) in *.
  set (ws1 := List.filter (λ x, negb (String.eqb (wheel_id x) v)) ws) in *.
  set (ss1 := List.filter (λ x, negb (String.eqb (sale_wheelId x) v)) ss) in *.
  assert (∀ key, stored (num := num) key w' = stored key (World (localStorage w') None []))
    as Hw' by (intros key; by apply stored_storage).
  assert (∀ sale, sale ∈ ss → sale_wheelId sale ≠ v → sale_wheelId sale ∈ map wheel_id ws1)
    as Hkept.
  { intros sale Hsale Hne. apply Hrefs in Hsale.
    apply list_elem_of_fmap in Hsale as (x & Hid & Hx).
    apply list_elem_of_fmap. exists x. split; [done|].
    apply elem_of_List_filter. split; [done|].
    apply negb_true_iff, String.eqb_neq. congruence. }
  destruct sure; cbn [negb] in Hls.
  2:{ exists ws, ss. unfold has_wheels, has_sales. rewrite !Hw', Hls, !stored_World.
      by repeat split. }
  destruct (existsb (λ x, String.eqb (sale_wheelId x) v) ss) eqn:Hsold.
  - destruct cascade; cbn [negb] in Hls.
    2:{ exists ws, ss. unfold has_wheels, has_sales. rewrite !Hw', Hls, !stored_World.
        by repeat split. }
    exists ws1, ss1. unfold has_wheels, has_sales. rewrite !Hw', Hls.
    split; [by apply stored_insert_eq|].
    split; [rewrite stored_insert_ne by done; by apply stored_insert_eq|].
    split; [by apply NoDup_map_filter|].
    intros sale [Hsale Hne]%elem_of_List_filter.
    apply Hkept; [done|]. by apply negb_true_iff, String.eqb_neq in Hne.
  - exists ws1, ss. unfold has_wheels, has_sales. rewrite !Hw', Hls.
    split; [by apply stored_insert_eq|].
    split; [rewrite stored_insert_ne by done; by rewrite stored_World|].
    split; [done|].
    intros sale Hsale. apply Hkept; [done|].
    apply existsb_sale_wheelId in Hsold. intros Heq. apply Hsold. rewrite <- Heq.
    apply list_elem_of_fmap. by exists sale.
Qed.

End Deleting.

Section DemoData.
Context {num : Type} `{!JsNumber num, !JsonText num, !JsNumberText num}.

Lemma append_same_suffix (s t a b : string) :
  String.length a = String.length b → s +:+ a = t +:+ b → a = b.
Proof.
  assert (∀ u c, String.length (u +:+ c) = String.length u + String.length c) as Hlen.
  { intros u c. induction u as [|x u IH]; [done|].
    change (S (String.length (u +:+ c)) = S (String.length u) + String.length c).
    by rewrite IH. }
  revert t. induction s as [|x s IH]; intros [|y t] Hab.
  - done.
  - change (a = String y (t +:+ b) → a = b). intros ->.
    change (S (String.length (t +:+ b)) = String.length b) in Hab.
    rewrite Hlen in Hab. lia.
  - change (String x (s +:+ a) = b → a = b). intros <-.
    change (String.length a = S (String.length (s +:+ a))) in Hab.
    rewrite Hlen in Hab. lia.
  - change (String x (s +:+ a) = String y (t +:+ b) → a = b).
    intros [= _ Heq]. by apply (IH t).
Qed.

Lemma append_suffix_ne (s t a b : string) :
  String.length a = String.length b → a ≠ b → s +:+ a ≠ t +:+ b.
Proof. intros Hlen Hne Heq. by apply Hne, (append_same_suffix s t). Qed.

(** X13: whatever the clock returns, the wheels of the demo data have four
    different ids, its sales have two different ids, no wheel has two
    sales, and every sale is the sale of one of its wheels. *)
Theorem demo_data_keeps_the_rules (now : nat → num) :
  NoDup (map wheel_id (seed_wheels now))
  ∧ NoDup (map sale_id (seed_sales now))
  ∧ one_sale_per_wheel (seed_sales now)
  ∧ sales_reference_wheels (seed_wheels now) (seed_sales now).
Proof.
  split; [|split; [|split]].
  - cbn. repeat (apply NoDup_cons; split); try apply NoDup_nil_2;
      rewrite ?not_elem_of_cons; repeat split; try apply not_elem_of_nil;
      by apply append_suffix_ne.
  - cbn. repeat (apply NoDup_cons; split); try apply NoDup_nil_2;
      rewrite ?not_elem_of_cons; repeat split; try apply not_elem_of_nil;
      by apply append_suffix_ne.
  - unfold one_sale_per_wheel. cbn.
    repeat (apply NoDup_cons; split); try apply NoDup_nil_2;
      rewrite ?not_elem_of_cons; repeat split; try apply not_elem_of_nil;
      by apply append_suffix_ne.
  - intros sale Hsale. cbn in Hsale.
    apply elem_of_cons in Hsale as [-> | Hsale]; [cbn; left|].
    apply elem_of_cons in Hsale as [-> | Hsale]; [cbn; right; left|].
    by apply elem_of_nil in Hsale.
Qed.

Lemma seeded_has (now : nat → num) (ls : gmap string string) (e : option string)
    (d : list dialog) :
  persists (wheels_json (seed_wheels now)) →
  persists (sales_json (seed_sales now)) →
  has_wheels (seeded now ls e d) (seed_wheels now)
  ∧ has_sales (seeded now ls e d) (seed_sales now).
Proof.
  intros Pws Pss. unfold has_wheels, has_sales, seeded. split.
  - rewrite stored_insert_ne by done. by apply stored_insert_eq.
  - by apply stored_insert_eq.
Qed.

(** X14: when the wheel collection is empty, because nothing is stored
    under its key or because the stored list is empty, [init] writes the
    demo data over both collections, whatever was stored as the sales. *)
Theorem init_seeds_without_wheels (now : nat → num) (w : world) :
  has_wheels w [] →
  persists (wheels_json (seed_wheels now)) →
  persists (sales_json (seed_sales now)) →
  init now w = (seeded now (localStorage w) (editingWheelId w) (dialogs w), Ok tt)
  ∧ has_wheels (init now w).1 (seed_wheels now)
  ∧ has_sales (init now w).1 (seed_sales now).
Proof.
  unfold has_wheels. intros Hws Pws Pss.
  destruct (seeded_has now (localStorage w) (editingWheelId w) (dialogs w) Pws Pss)
    as [Hws' Hss'].
  assert (init now w
          = (seeded now (localStorage w) (editingWheelId w) (dialogs w), Ok tt)) as Hrun.
  { unfold init, loadWheels. run. rewrite Hws. run.
    unfold wheels_json, length_is_zero. cbn [map].
    rewrite bool_decide_eq_true_2 by done. exec_rest.
    unfold seeded in *. by rewrite (run_refresh _ _ _ Hws' Hss'). }
  by rewrite Hrun.
Qed.

(** X15: when the collection has a wheel, [init] writes nothing. *)
Theorem init_keeps_the_wheels (now : nat → num) (w : world) (ws : list (Wheel num))
    (ss : list (Sale num)) :
  has_wheels w ws →
  has_sales w ss →
  ws ≠ [] →
  init now w = (w, Ok tt).
Proof.
  intros Hws Hss Hne. unfold init, loadWheels. run. rewrite Hws. run.
  unfold length_is_zero, wheels_json.
  assert (bool_decide (map wheel_json ws = []) = false) as ->.
  { apply bool_decide_eq_false. by destruct ws. }
  exec_rest. rewrite (run_refresh w ws ss Hws Hss). by destruct w.
Qed.

(** X16: a reset to the demo data that the user confirms makes the two
    collections the demo data whatever the storage held, texts that cannot
    be parsed included, and leaves the other keys; a reset that the user
    declines changes nothing. *)
Theorem reset_restores_the_demo_data (now : nat → num) (w : world) :
  persists (wheels_json (seed_wheels now)) →
  persists (sales_json (seed_sales now)) →
  resetDemoData true now w
  = (seeded now
       (delete "threeWheel_sales" (delete "threeWheel_items" (localStorage w)))
       (editingWheelId w)
       (dialogs w ++
          [Confirm "This will delete all current data and restore demo data. Are you sure?"
             true;
           Alert "Demo data restored successfully"]),
     Ok tt)
  ∧ has_wheels (resetDemoData true now w).1 (seed_wheels now)
  ∧ has_sales (resetDemoData true now w).1 (seed_sales now)
  ∧ (∀ key, key ≠ "threeWheel_items" → key ≠ "threeWheel_sales" →
     localStorage (resetDemoData true now w).1 !! key = localStorage w !! key)
  ∧ resetDemoData false now w
    = (shown
         (Confirm "This will delete all current data and restore demo data. Are you sure?"
            false) w,
       Ok tt).
Proof.
  intros Pws Pss.
  assert (resetDemoData true now w
          = (seeded now
               (delete "threeWheel_sales" (delete "threeWheel_items" (localStorage w)))
               (editingWheelId w)
               (dialogs w ++
                  [Confirm
                     "This will delete all current data and restore demo data. Are you sure?"
                     true;
                   Alert "Demo data restored successfully"]),
             Ok tt)) as Hrun.
  { unfold resetDemoData. exec_rest.
    match goal with |- context [refresh ?x] =>
      destruct (seeded_has now
                  (delete "threeWheel_sales" (delete "threeWheel_items" (localStorage w)))
                  (editingWheelId x) (dialogs x) Pws Pss) as [Hws' Hss']
    end.
    cbn [editingWheelId dialogs] in Hws', Hss'.
    unfold seeded in Hws', Hss'. rewrite (run_refresh _ _ _ Hws' Hss').
    unfold seeded. by rewrite <- !app_assoc. }
  rewrite Hrun. cbn [fst].
  destruct (seeded_has now
              (delete "threeWheel_sales" (delete "threeWheel_items" (localStorage w)))
              (editingWheelId w)
              (dialogs w ++
                 [Confirm
                    "This will delete all current data and restore demo data. Are you sure?"
                    true;
                  Alert "Demo data restored successfully"]) Pws Pss) as [Hws' Hss'].
  split; [done|]. split; [done|]. split; [done|]. split; [|done].
  intros key Hitems Hsales. unfold seeded. cbn [localStorage].
  by rewrite !lookup_insert_ne, !lookup_delete_ne.
Qed.

End DemoData.

Section Bills.
Context {num : Type} `{!JsNumber num, !JsonText num}.

(** X17: [generateBill] writes neither collection.  For an id that no sale
    has it alerts that the sale was not found; for a sale whose wheel is
    missing it alerts that the wheel information was not found; in both
    cases the current sale is left as it is.  Otherwise the first sale with
    the id becomes the current sale, without any dialog. *)
Theorem generate_bill_outcomes (saleId : string) (w : world) (ws : list (Wheel num))
    (ss : list (Sale num)) :
  has_wheels w ws →
  has_sales w ss →
  match List.find (λ s, String.eqb (sale_id s) saleId) ss with
  | None => generateBill saleId w = (shown (Alert "Sale not found") w, Ok tt)
  | Some sale =>
      if existsb (λ x, String.eqb (wheel_id x) (sale_wheelId sale)) ws
      then generateBill saleId w
           = (World
                (<["threeWheel_currentSale" := JSON_stringify (sale_json sale)]>
                   (localStorage w))
                (editingWheelId w) (dialogs w),
              Ok tt)
      else generateBill saleId w
           = (shown (Alert "Wheel information not found") w, Ok tt)
  end
  ∧ has_wheels (generateBill saleId w).1 ws
  ∧ has_sales (generateBill saleId w).1 ss.
Proof.
  unfold has_wheels, has_sales. intros Hws Hss.
  assert (∀ v,
    List.find (λ x : Wheel num, String.eqb (wheel_id x) v) ws = None
    ↔ existsb (λ x, String.eqb (wheel_id x) v) ws = false) as Hfind.
  { intros v. by rewrite find_wheel_None, existsb_wheel_id. }
  unfold generateBill, loadWheels, loadSales. run. rewrite Hss. run. rewrite Hws. run.
  destruct (List.find _ ss) as [sale|]; [|exec; by rewrite !stored_World].
  run.
  destruct (List.find _ ws) as [wheel|] eqn:Hwheel.
  - destruct (existsb _ ws) eqn:Hsold; [|by apply Hfind in Hsold; congruence].
    exec. by rewrite !stored_insert_ne, !stored_World.
  - apply Hfind in Hwheel. rewrite Hwheel. exec. by rewrite !stored_World.
Qed.

(** X18: after a sale has been recorded for a wheel of the collection, the
    bill that is printed is the bill of that sale and of the first wheel
    with its id. *)
Theorem bill_of_the_recorded_sale (w : world) (ws : list (Wheel num))
    (ss : list (Sale num)) (f : SaleForm) (newId : string) (wheel : Wheel num) :
  has_wheels w ws →
  has_sales w ss →
  sale_form_valid f = true →
  existsb (λ sale, String.eqb (sale_wheelId sale) (sf_wheelId f)) ss = false →
  List.find (λ x, String.eqb (wheel_id x) (sf_wheelId f)) ws = Some wheel →
  persists (sale_json (sale_of_form f newId)) →
  printBill (handleSaleSubmit f newId w).1
  = ((handleSaleSubmit f newId w).1, Ok (Some (sale_of_form f newId, wheel))).
Proof.
  intros Hws Hss Hvalid Hunsold Hwheel [Hne Hparse].
  rewrite (handleSaleSubmit_recorded f newId w ss Hvalid Hss Hunsold).
  unfold printBill, loadWheels. exec_rest. rewrite lookup_insert_eq.
  cbn [from_option default id]. rewrite Hne, Hparse. exec_rest. rewrite run_load.
  rewrite !stored_insert_ne, stored_World by done. rewrite Hws.
  rewrite sale_of_json_json. exec_rest. rewrite run_wheel_records.
  cbn [sale_wheelId sale_of_form]. by rewrite Hwheel.
Qed.

(** X19: the deletion of a wheel does not touch the current sale: when the
    current sale is a sale of the wheel and the deletion is confirmed
    twice, the bill cannot be printed afterwards, and the alert says that
    the wheel information was not found. *)
Theorem bill_after_the_wheel_is_deleted (v : string) (w : world)
    (ws : list (Wheel num)) (ss : list (Sale num)) (text : string) (sale : Sale num) :
  has_wheels w ws →
  has_sales w ss →
  existsb (λ x, String.eqb (sale_wheelId x) v) ss = true →
  persists (wheels_json (List.filter (λ x, negb (String.eqb (wheel_id x) v)) ws)) →
  persists (sales_json (List.filter (λ x, negb (String.eqb (sale_wheelId x) v)) ss)) →
  localStorage w !! "threeWheel_currentSale" = Some text →
  nonempty text = true →
  JSON_parse text = Some (sale_json sale) →
  sale_wheelId sale = v →
  localStorage (deleteWheel v true true w).1 !! "threeWheel_currentSale" = Some text
  ∧ printBill (deleteWheel v true true w).1
    = (shown (Alert "Wheel information not found") (deleteWheel v true true w).1, Ok None).
Proof.
  intros Hws Hss Hsold Pws Pss Hcurrent Hne Hparse Hv.
  rewrite (deleteWheel_run v true true w ws ss Hws Hss Pws Pss). cbv zeta.
  rewrite Hsold. cbn [negb fst localStorage].
  split; [by rewrite !lookup_insert_ne|].
  unfold printBill, loadWheels. exec_rest. rewrite !lookup_insert_ne by done.
  rewrite Hcurrent. cbn [from_option default id]. rewrite Hne, Hparse. exec_rest.
  rewrite run_load, (stored_insert_eq _ _ _ _ _ Pws).
  rewrite sale_of_json_json. exec_rest. rewrite run_wheel_records, Hv.
  by rewrite (proj2 (find_wheel_None v _) (proj1 (existsb_wheel_id v _)
                (existsb_filter_negb _ ws))).
Qed.



End Bills.

Section ImportTwice.
Context {num : Type} `{!JsNumber num, !JsonText num}.

(** X21: importing a text a second time changes nothing: the storage after
    two confirmed imports of the same text is the storage after one. *)
Theorem import_twice (text : string) (w : world) :
  localStorage
    (handleFileImport (Some text) true (handleFileImport (Some text) true w).1).1
  = localStorage (handleFileImport (Some text) true w).1.
Proof.
  destruct (handleFileImport_storage text (handleFileImport (Some text) true w).1)
    as [_ ->].
  destruct (handleFileImport_storage text w) as [_ ->]. cbv zeta.
  destruct (spec_imported_list text "wheels") as [wheels|],
    (spec_imported_list text "sales") as [sales|]; try done.
  - apply map_eq. intros key. rewrite !lookup_insert. by repeat case_decide.
  - by rewrite insert_insert_eq.
  - by rewrite insert_insert_eq.
Qed.

End ImportTwice.

Section MoreReport.
Context {num : Type} `{!JsNumber num, !JsonText num, !JsNumberText num}.

(** The row of a sale with whole amounts has whole amounts. *)
Lemma row_amounts (ws : list (Wheel num)) (sale : Sale num) (bound cap : Z) :
  exact_up_to bound →
  (cap ≤ bound)%Z →
  whole_amount cap (sale_sellingPrice sale) →
  (∀ wheel, wheel ∈ ws → whole_amount cap (wheel_purchasePrice wheel)) →
  ∃ s c : Z,
    (0 ≤ s ≤ cap)%Z ∧ (0 ≤ c ≤ cap)%Z
    ∧ sale_sellingPrice (row_sale (enrich ws sale)) = nconst s
    ∧ row_purchasePrice (enrich ws sale) = nconst c
    ∧ row_profit (enrich ws sale) = nconst (s - c)%Z.
Proof.
  intros Hexact Hcap (s & Hs & Hselling) Hwheels. unfold enrich. simpl.
  destruct (List.find _ ws) as [wheel|] eqn:Hfind.
  - apply find_wheel_Some in Hfind as [Hin _].
    destruct (Hwheels wheel Hin) as (c & Hc & Hprice).
    exists s, c. repeat (split; [done|]).
    rewrite Hselling, Hprice.
    assert (Z.abs s ≤ bound)%Z as Hs' by lia.
    assert (Z.abs c ≤ bound)%Z as Hc' by lia.
    destruct (Hexact s c Hs' Hc') as [_ Hsub]. apply Hsub. lia.
  - exists s, 0%Z. split; [done|]. split; [lia|]. split; [done|]. split; [done|].
    by rewrite Z.sub_0_r.
Qed.

(** The three sums of a report over whole amounts: each of them is the
    whole number it should be, while the sums stay within the bound. *)
Lemma sums_exact (ws : list (Wheel num)) (ss : list (Sale num)) (bound cap : Z) :
  exact_up_to bound →
  (0 ≤ cap)%Z →
  (∀ sale, sale ∈ ss → whole_amount cap (sale_sellingPrice sale)) →
  (∀ wheel, wheel ∈ ws → whole_amount cap (wheel_purchasePrice wheel)) →
  ∀ m ra ca : Z,
    (0 ≤ ra ≤ m)%Z → (0 ≤ ca ≤ m)%Z →
    (m + Z.of_nat (length ss) * cap ≤ bound)%Z →
    ∃ r c : Z,
      (0 ≤ r ≤ bound)%Z ∧ (0 ≤ c ≤ bound)%Z
      ∧ fold_left (λ sum item, nadd sum (sale_sellingPrice (row_sale item)))
          (map (enrich ws) ss) (nconst ra) = nconst r
      ∧ fold_left (λ sum item, nadd sum (row_purchasePrice item))
          (map (enrich ws) ss) (nconst ca) = nconst c
      ∧ fold_left nadd (map row_profit (map (enrich ws) ss)) (nconst (ra - ca)%Z)
        = nconst (r - c)%Z.
Proof.
  intros Hexact Hcap Hsales Hwheels.
  induction ss as [|sale ss IH]; intros m ra ca Hra Hca Hbound.
  - exists ra, ca. simpl in Hbound. repeat split; try done; lia.
  - rewrite length_cons, Nat2Z.inj_succ in Hbound.
    assert (0 ≤ Z.of_nat (length ss) * cap)%Z as Hrest by lia.
    destruct (row_amounts ws sale bound cap Hexact) as (s & c & Hs & Hc & Hs' & Hc' & Hp).
    { lia. }
    { apply Hsales, list_elem_of_here. }
    { done. }
    cbn [map fold_left]. rewrite Hs', Hc', Hp.
    assert (Z.abs ra ≤ bound ∧ Z.abs s ≤ bound ∧ Z.abs ca ≤ bound ∧ Z.abs c ≤ bound
            ∧ Z.abs (ra - ca) ≤ bound ∧ Z.abs (s - c) ≤ bound)%Z
      as (Ha1 & Ha2 & Ha3 & Ha4 & Ha5 & Ha6) by lia.
    rewrite (proj1 (Hexact ra s Ha1 Ha2)) by lia.
    rewrite (proj1 (Hexact ca c Ha3 Ha4)) by lia.
    rewrite (proj1 (Hexact (ra - ca)%Z (s - c)%Z Ha5 Ha6)) by lia.
    replace (ra - ca + (s - c))%Z with (ra + s - (ca + c))%Z by lia.
    apply (IH (λ x Hx, Hsales x (list_elem_of_further _ _ _ Hx)) (m + cap)%Z); lia.
Qed.

(** X22: when every price is a whole amount, and the amounts are small
    enough for the sums to be exact, the total profit of a report is the
    sum, from 0 and from the left, of the profits of its rows.  Small
    enough means that the number of sales times the largest price is within
    a bound up to which whole numbers are added and subtracted without
    rounding; for the numbers of JavaScript that bound is 2^53.  (Of prices
    with cents the equation does not hold in general.) *)
Theorem total_profit_is_the_sum (fromDate toDate : string) (w : world)
    (ws : list (Wheel num)) (ss : list (Sale num)) (bound cap : Z) :
  has_wheels w ws →
  has_sales w ss →
  exact_up_to bound →
  (∀ sale, sale ∈ ss → whole_amount cap (sale_sellingPrice sale)) →
  (∀ wheel, wheel ∈ ws → whole_amount cap (wheel_purchasePrice wheel)) →
  (Z.of_nat (length ss) * cap ≤ bound)%Z →
  ∃ rows summary,
    renderReport fromDate toDate w = (w, Ok (rows, summary))
    ∧ ∀ total, summary = Some total →
        totalProfit total = fold_left nadd (map row_profit rows) (nconst 0).
Proof.
  intros Hws Hss Hexact Hsales Hwheels Hbound.
  rewrite (renderReport_run fromDate toDate w ws ss Hws Hss). cbv zeta.
  eexists _, _. split; [reflexivity|].
  intros total.
  destruct (Nat.eqb _ 0) eqn:Hnone; [done|]. intros [= <-]. cbn [totalProfit].
  assert (length (List.filter (spec_in_range fromDate toDate) ss) ≤ length ss)%nat
    as Hlength by apply filter_length_le.
  assert (0 ≤ cap)%Z as Hcap.
  { destruct ss as [|sale ss]; [done|].
    destruct (Hsales sale (list_elem_of_here _ _)) as (z & Hz & _). lia. }
  destruct (sums_exact ws (List.filter (spec_in_range fromDate toDate) ss) bound cap
              Hexact Hcap) with (m := 0%Z) (ra := 0%Z) (ca := 0%Z)
    as (r & c & Hr & Hc & -> & -> & Hprofit); try done.
  - intros sale [Hsale _]%elem_of_List_filter. by apply Hsales.
  - nia.
  - change (0 - 0)%Z with 0%Z in Hprofit. rewrite Hprofit.
    assert (Z.abs r ≤ bound ∧ Z.abs c ≤ bound)%Z as [Hr' Hc'] by lia.
    destruct (Hexact r c Hr' Hc') as [_ Hsub]. apply Hsub. lia.
Qed.

Lemma compare_not_Gt_trans (a b c : string) :
  String.compare a b ≠ Gt → String.compare b c ≠ Gt → String.compare a c ≠ Gt.
Proof.
  revert b c. induction a as [|x a IH]; intros [|y b] [|z c]; simpl; try done.
  unfold Ascii.compare.
  destruct (N.compare_spec (N_of_ascii x) (N_of_ascii y)) as [Hxy|Hxy|Hxy],
    (N.compare_spec (N_of_ascii y) (N_of_ascii z)) as [Hyz|Hyz|Hyz],
    (N.compare_spec (N_of_ascii x) (N_of_ascii z)) as [Hxz|Hxz|Hxz];
    try done; try lia.
  apply IH.
Qed.

Lemma leb_trans (a b c : string) :
  String.leb a b = true → String.leb b c = true → String.leb a c = true.
Proof.
  unfold String.leb. intros Hab Hbc.
  assert (String.compare a c ≠ Gt) as Hac.
  { apply (compare_not_Gt_trans a b c).
    - by destruct (String.compare a b).
    - by destruct (String.compare b c). }
  by destruct (String.compare a c).
Qed.

(** X23: a report whose last date is given and is before its first date
    has no row and no summary, whatever the sales are. *)
Theorem report_of_reversed_bounds (fromDate toDate : string) (w : world)
    (ws : list (Wheel num)) (ss : list (Sale num)) :
  has_wheels w ws →
  has_sales w ss →
  nonempty toDate = true →
  String.ltb toDate fromDate = true →
  renderReport fromDate toDate w = (w, Ok ([], None)).
Proof.
  intros Hws Hss Hto Hlt.
  rewrite (renderReport_run fromDate toDate w ws ss Hws Hss). cbv zeta. clear Hss.
  assert (String.leb fromDate toDate = false) as Hno.
  { unfold String.ltb, String.leb in *. rewrite String.compare_antisym.
    by destruct (String.compare toDate fromDate). }
  assert (nonempty fromDate = true) as Hfrom.
  { destruct fromDate; [|done]. by destruct toDate. }
  assert (List.filter (spec_in_range fromDate toDate) ss = []) as ->; [|done].
  induction ss as [|sale ss IH]; [done|]. cbn [List.filter].
  assert (spec_in_range fromDate toDate sale = false) as ->; [|by apply IH].
  unfold spec_in_range. rewrite Hfrom, Hto. cbn [negb orb].
  destruct (String.leb fromDate (sale_saleDate sale)) eqn:Hfs; [|done].
  destruct (String.leb (sale_saleDate sale) toDate) eqn:Hst; [|done].
  by rewrite (leb_trans _ _ _ Hfs Hst) in Hno.
Qed.

Lemma append_assoc (a b c : string) : (a +:+ b) +:+ c = a +:+ (b +:+ c).
Proof.
  induction a as [|x a IH]; [done|].
  change (String x ((a +:+ b) +:+ c) = String x (a +:+ (b +:+ c))). by rewrite IH.
Qed.

Lemma append_empty_r (a : string) : a +:+ "" = a.
Proof.
  induction a as [|x a IH]; [done|].
  change (String x (a +:+ "") = String x a). by rewrite IH.
Qed.

Lemma fold_left_lines {A} (g : A → string) (l : list A) (init : string) :
  fold_left (λ text item, text +:+ g item) l init
  = init +:+ foldr (λ item rest, g item +:+ rest) "" l.
Proof.
  revert init. induction l as [|x l IH]; intros init; cbn [fold_left foldr].
  - by rewrite append_empty_r.
  - by rewrite IH, append_assoc.
Qed.

(** X24: the CSV text of a report.  When the report has no row there is no
    text, only the alert that there is nothing to export.  Otherwise the
    text is the line of the column names, one line for each row of the
    report in its order, an empty line and the summary, whose count and
    totals are those of the summary of the report; the purchase prices
    and the total cost are in the text exactly when the admin toggle is
    on. *)
Theorem csv_export_of_a_report (fromDate toDate : string) (w : world)
    (ws : list (Wheel num)) (ss : list (Sale num)) (show : bool) :
  has_wheels w ws →
  has_sales w ss →
  getAdminToggle w = (w, Ok show) →
  ∃ rows summary,
    renderReport fromDate toDate w = (w, Ok (rows, summary))
    ∧ exportToCSV rows w
      = match summary with
        | None => (shown (Alert "No data to export") w, Ok None)
        | Some total =>
            (shown (Alert "Report exported to CSV successfully") w,
             Ok (Some (csv_header show +:+ csv_lines show rows +:+ csv_summary show total)))
        end.
Proof.
  intros Hws Hss Htoggle.
  rewrite (renderReport_run fromDate toDate w ws ss Hws Hss). cbv zeta.
  set (rows := map (enrich ws) _).
  eexists _, _. split; [reflexivity|].
  unfold exportToCSV. destruct (Nat.eqb (length rows) 0); [done|].
  rewrite run_bind, Htoggle.
  unfold csv_header, csv_lines, csv_summary, csv_line. cbn [count totalRevenue totalCost totalProfit].
  destruct show; cbn [take drop app]; exec;
    rewrite (fold_left_lines (A := ReportRow)), !append_assoc; reflexivity.
Qed.

End MoreReport.

(** * The properties on the reference platform *)

Import Reference Demo.

(** ** C1 *)

(** On the shop, the sale of the second wheel keeps the rule, and the
    import of a backup with one sale makes that sale the collection. *)
Lemma record_sale_keeps_one_sale_per_wheel_witness :
  (∃ ss', has_sales (handleSaleSubmit form_wheel2 "sale_1700000000000_2" shop).1 ss'
          ∧ one_sale_per_wheel ss')
  ∧ has_sales (handleFileImport (Some backup_one_sale) true fresh).1 [sale1].
Proof.
  destruct (record_sale_keeps_one_sale_per_wheel (num := number)) as [Hrecord Himport].
  split.
  - apply (Hrecord shop [sale1]).
    + vm_compute. reflexivity.
    + apply NoDup_singleton.
    + split; vm_compute; reflexivity.
  - apply Himport.
    + vm_compute. reflexivity.
    + split; vm_compute; reflexivity.
Defined.

(** C1 fails for an import: starting from the empty storage, where the rule
    holds, the confirmed import of [backup_two_sales] stores its two sales;
    both reference the wheel ["wheel_1700000000000_1"]. *)
Lemma import_breaks_one_sale_per_wheel :
  has_sales fresh [] ∧ one_sale_per_wheel ([] : list (Sale number))
  ∧ has_sales (handleFileImport (Some backup_two_sales) true fresh).1 [sale1; sale1_again]
  ∧ sale_wheelId sale1 = sale_wheelId sale1_again
  ∧ ¬ one_sale_per_wheel [sale1; sale1_again].
Proof.
  split; [vm_compute; reflexivity|]. split; [apply NoDup_nil_2|].
  split; [vm_compute; reflexivity|]. split; [reflexivity|].
  unfold one_sale_per_wheel. simpl. intros Hdup. apply NoDup_cons in Hdup as [Hin _].
  apply Hin. left.
Qed.

(** ** C2 *)

(** The first wheel of the shop is sold: a second sale of it, with a form
    that passes the checks, is refused and the storage stays as it is. *)
Lemma record_sale_already_sold_witness :
  localStorage (handleSaleSubmit form_wheel1 "sale_1700000000000_2" shop).1
  = localStorage shop
  ∧ handleSaleSubmit form_wheel1 "sale_1700000000000_2" shop
    = (shown (Alert "This wheel has already been sold") shop, Ok tt).
Proof.
  destruct (record_sale_already_sold shop [sale1] form_wheel1 "sale_1700000000000_2")
    as [Hstorage Halert].
  - vm_compute. reflexivity.
  - vm_compute. reflexivity.
  - split; [exact Hstorage|]. apply Halert. vm_compute. reflexivity.
Defined.

(** C2 fails for a form that does not pass the field checks: the wheel of
    [form_wheel1_free] is sold, and the answer is the alert about the
    selling price, not the one about the wheel. *)
Lemma record_sale_checks_fields_first :
  has_sales shop [sale1]
  ∧ sf_wheelId form_wheel1_free = sale_wheelId sale1
  ∧ handleSaleSubmit form_wheel1_free "sale_1700000000000_2" shop
    = (shown (Alert "Selling price must be greater than 0") shop, Ok tt)
  ∧ handleSaleSubmit form_wheel1_free "sale_1700000000000_2" shop
    ≠ (shown (Alert "This wheel has already been sold") shop, Ok tt).
Proof.
  split; [vm_compute; reflexivity|]. split; [reflexivity|].
  split; [vm_compute; reflexivity|]. vm_compute. discriminate.
Qed.

(** ** C3 *)

(** The first wheel of the shop is sold.  Without the second confirmation
    the storage stays as it is; with it the sale collection becomes empty
    and the wheel collection loses the wheel. *)
Lemma delete_sold_wheel_witness :
  localStorage (deleteWheel "wheel_1700000000000_1" true false shop).1 = localStorage shop
  ∧ has_sales (deleteWheel "wheel_1700000000000_1" true true shop).1 []
  ∧ has_wheels (deleteWheel "wheel_1700000000000_1" true true shop).1 [wheel2].
Proof.
  destruct (delete_sold_wheel "wheel_1700000000000_1" shop [wheel1; wheel2] [sale1])
    as (Hdeclined & Hconfirmed & _).
  - vm_compute. reflexivity.
  - vm_compute. reflexivity.
  - vm_compute. reflexivity.
  - split; vm_compute; reflexivity.
  - split; vm_compute; reflexivity.
  - rewrite Hdeclined, Hconfirmed. repeat split; vm_compute; reflexivity.
Defined.

(** ** C4 *)

(** Nothing stored gives the empty list; the two texts of [broken] make the
    loads throw. *)
Lemma load_malformed_witness :
  loadWheels fresh = (fresh, Ok (JArr []))
  ∧ loadWheels broken = (broken, Throw SyntaxError)
  ∧ loadSales broken = (broken, Throw SyntaxError).
Proof.
  destruct (load_malformed (num := number) fresh) as (Hempty & _).
  destruct (load_malformed (num := number) broken) as (_ & _ & Hwheels & Hsales).
  split; [|split].
  - apply Hempty. left. vm_compute. reflexivity.
  - apply (Hwheels "{oops"); vm_compute; reflexivity.
  - apply (Hsales "[1,"); vm_compute; reflexivity.
Defined.

(** C4 fails: the text ["{oops"] under the wheel key cannot be parsed, and
    [loadWheels] throws instead of returning the empty list; so does
    [loadSales] on the text ["[1,"]. *)
Lemma load_malformed_throws :
  localStorage broken !! "threeWheel_items" = Some "{oops"
  ∧ JSON_parse (num := number) "{oops" = None
  ∧ loadWheels broken = (broken, Throw SyntaxError)
  ∧ loadWheels broken ≠ (broken, Ok (JArr []))
  ∧ localStorage broken !! "threeWheel_sales" = Some "[1,"
  ∧ JSON_parse (num := number) "[1," = None
  ∧ loadSales broken = (broken, Throw SyntaxError)
  ∧ loadSales broken ≠ (broken, Ok (JArr [])).
Proof.
  repeat split; try (vm_compute; reflexivity); vm_compute; discriminate.
Qed.

(** ** C5 *)

(** No wheel of the shop has the id ["wheel_gone"], and no sale references
    it. *)
Lemma absent_wheel_witness :
  handleWheelSubmit form_gone "wheel_1700000000000_5" "2024-05-01" shop_editing
  = (World (localStorage shop) None [], Ok tt)
  ∧ has_wheels (deleteWheel "wheel_gone" true false shop_editing).1 [wheel1; wheel2]
  ∧ has_sales (deleteWheel "wheel_gone" true false shop_editing).1 [sale1].
Proof.
  destruct (absent_wheel "wheel_gone" shop_editing [wheel1; wheel2] [sale1] form_gone
              "wheel_1700000000000_5" "2024-05-01" true false)
    as (Hupdate & _ & Hdelete).
  - vm_compute. reflexivity.
  - vm_compute. reflexivity.
  - apply (bool_decide_unpack _). vm_compute. exact I.
  - split; vm_compute; reflexivity.
  - split.
    + apply Hupdate; vm_compute; reflexivity.
    + rewrite Hdelete.
      * split; vm_compute; reflexivity.
      * apply (bool_decide_unpack _). vm_compute. exact I.
Defined.

(** C5 fails: for the id ["wheel_gone"], which no wheel has, the update in
    edit mode ends without any dialog, and the confirmed deletion ends with
    the alert of a successful deletion; neither reports that the wheel was
    not found.  With a sale that references the id, the deletion removes
    that sale from the sale collection. *)
Lemma absent_wheel_not_reported :
  has_wheels shop_editing [wheel1; wheel2]
  ∧ ("wheel_gone" ∉ map wheel_id [wheel1; wheel2])
  ∧ handleWheelSubmit form_gone "wheel_1700000000000_5" "2024-05-01" shop_editing
    = (World (localStorage shop) None [], Ok tt)
  ∧ dialogs (deleteWheel "wheel_gone" true false shop).1
    = [Confirm "Are you sure you want to delete this wheel? This action cannot be undone."
         true;
       Alert "Wheel deleted successfully"]
  ∧ (deleteWheel "wheel_gone" true false shop).2 = Ok tt
  ∧ has_wheels shop_dangling [wheel1; wheel2]
  ∧ has_sales shop_dangling [sale1; sale_dangling]
  ∧ has_sales (deleteWheel "wheel_gone" true true shop_dangling).1 [sale1].
Proof.
  split; [vm_compute; reflexivity|].
  split; [apply (bool_decide_unpack _); vm_compute; exact I|].
  repeat split; vm_compute; reflexivity.
Qed.

(** ** C6 *)

(** The sale of the shop is of 1 February 2024: it is in the report of
    2024, and not in a report that starts in March. *)
Lemma report_rows_in_range_witness :
  (∃ rows summary,
     renderReport "2024-01-01" "2024-12-31" shop = (shop, Ok (rows, summary))
     ∧ map row_sale rows = [sale1])
  ∧ (∃ rows summary,
       renderReport "2024-03-01" "" shop = (shop, Ok (rows, summary))
       ∧ map row_sale rows = []).
Proof.
  split.
  - destruct (report_rows_in_range "2024-01-01" "2024-12-31" shop [wheel1; wheel2] [sale1])
      as (rows & summary & Hrun & _ & Hsales & _).
    + vm_compute. reflexivity.
    + vm_compute. reflexivity.
    + exists rows, summary. split; [exact Hrun|]. rewrite Hsales. vm_compute. reflexivity.
  - destruct (report_rows_in_range "2024-03-01" "" shop [wheel1; wheel2] [sale1])
      as (rows & summary & Hrun & _ & Hsales & _).
    + vm_compute. reflexivity.
    + vm_compute. reflexivity.
    + exists rows, summary. split; [exact Hrun|]. rewrite Hsales. vm_compute. reflexivity.
Defined.

(** ** C7 *)

(** The report of the shop with a sale of a missing wheel: that sale has
    a row, with the model ["Unknown"], the purchase price 0 and its selling
    price as the profit. *)
Lemma report_row_join_witness :
  ∃ rows summary,
    renderReport "" "" shop_dangling = (shop_dangling, Ok (rows, summary))
    ∧ map row_sale rows = [sale1; sale_dangling]
    ∧ (∃ row, row ∈ rows ∧ row_sale row = sale_dangling
         ∧ row_model row = "Unknown"
         ∧ row_purchasePrice row = Some 0%Z
         ∧ row_profit row = Some 70000%Z)
    ∧ ∀ row, row ∈ rows →
        row_profit row = nsub (sale_sellingPrice (row_sale row)) (row_purchasePrice row)
        ∧ (sale_wheelId (row_sale row) ∉ map wheel_id [wheel1; wheel2] →
           row_model row = "Unknown" ∧ row_purchasePrice row = Some 0%Z).
Proof.
  destruct (report_row_join "" "" shop_dangling [wheel1; wheel2] [sale1; sale_dangling])
    as (rows & summary & Hrun & Hsales & Hevery & Hrows).
  - vm_compute. reflexivity.
  - vm_compute. reflexivity.
  - intros [z|]; simpl; [|reflexivity]. f_equal. lia.
  - exists rows, summary. split; [exact Hrun|]. split; [exact Hsales|]. split.
    + destruct (Hevery sale_dangling) as (row & Hrow & Hsale).
      * apply list_elem_of_further, list_elem_of_here.
      * vm_compute. reflexivity.
      * exists row. split; [exact Hrow|]. split; [exact Hsale|].
        destruct (Hrows row Hrow) as (_ & Hprofit & _ & Hmissing).
        destruct Hmissing as (_ & Hmodel & Hprice).
        { rewrite Hsale. apply (bool_decide_unpack _). vm_compute. exact I. }
        split; [exact Hmodel|]. split; [exact Hprice|].
        rewrite Hprofit, Hprice, Hsale. vm_compute. reflexivity.
    + intros row Hrow. destruct (Hrows row Hrow) as (_ & Hprofit & _ & Hmissing).
      split; [exact Hprofit|]. intros Hgone. by destruct (Hmissing Hgone) as (_ & ? & ?).
Defined.

(** The two rows of that report. *)
Example report_of_shop_dangling :
  (renderReport "" "" shop_dangling).2
  = Ok ([ {| row_sale := sale1; row_wheel := Some wheel1;
             row_model := "Bajaj Auto Rickshaw";
             row_purchasePrice := Some 85000%Z; row_profit := Some 10000%Z |};
          {| row_sale := sale_dangling; row_wheel := None;
             row_model := "Unknown";
             row_purchasePrice := Some 0%Z; row_profit := Some 70000%Z |} ],
        Some {| count := 2; totalRevenue := Some 165000%Z;
                totalCost := Some 85000%Z; totalProfit := Some 80000%Z |}).
Proof. vm_compute. reflexivity. Qed.

(** ** C8 *)

(** The report of the shop has one row, for its one sale. *)
Lemma report_without_bounds_witness :
  ∃ rows summary,
    renderReport "" "" shop = (shop, Ok (rows, summary))
    ∧ map row_sale rows = [sale1]
    ∧ length rows = 1.
Proof.
  destruct (report_without_bounds shop [wheel1; wheel2] [sale1])
    as (rows & summary & Hrun & Hsales & Hlength & _).
  - vm_compute. reflexivity.
  - vm_compute. reflexivity.
  - by exists rows, summary.
Defined.

(** The scenario of the specification: two wheels bought for 85000 and
    92000, the first sold for 95000 on 1 February 2024. *)
Example report_of_shop :
  renderReport "" "" shop
  = (shop,
     Ok ([ {| row_sale := sale1; row_wheel := Some wheel1;
              row_model := "Bajaj Auto Rickshaw";
              row_purchasePrice := Some 85000%Z; row_profit := Some 10000%Z |} ],
         Some {| count := 1; totalRevenue := Some 95000%Z;
                 totalCost := Some 85000%Z; totalProfit := Some 10000%Z |})).
Proof. vm_compute. reflexivity. Qed.

(** C8 fails for the empty collection: the report has no row and no
    summary at all, so there are no totals that could satisfy the
    equation. *)
Lemma report_of_nothing_has_no_summary :
  has_wheels fresh [] ∧ has_sales fresh []
  ∧ renderReport "" "" fresh = (fresh, Ok ([], None))
  ∧ ¬ ∃ rows total, renderReport "" "" fresh = (fresh, Ok (rows, Some total)).
Proof.
  split; [vm_compute; reflexivity|]. split; [vm_compute; reflexivity|].
  split; [vm_compute; reflexivity|].
  intros (rows & total & Hrun). vm_compute in Hrun. discriminate.
Qed.

(** ** C9 *)

(** A text that is not JSON leaves the shop as it is; a backup with sales
    only replaces the sales and leaves the wheels. *)
Lemma import_replaces_lists_witness :
  localStorage (handleFileImport (Some "{oops") true shop).1 = localStorage shop
  ∧ localStorage (handleFileImport (Some backup_two_sales) true shop).1 !! "threeWheel_items"
    = localStorage shop !! "threeWheel_items"
  ∧ localStorage (handleFileImport (Some backup_two_sales) true shop).1 !! "threeWheel_sales"
    = Some (JSON_stringify (sales_json [sale1; sale1_again])).
Proof.
  destruct (import_replaces_lists (num := number) "{oops" shop)
    as (_ & _ & _ & _ & Hnoop & _).
  destruct (import_replaces_lists (num := number) backup_two_sales shop)
    as (_ & Hwheels & Hsales & _).
  split; [|split].
  - apply Hnoop. left. vm_compute. reflexivity.
  - rewrite Hwheels. vm_compute. reflexivity.
  - rewrite Hsales. vm_compute. reflexivity.
Defined.

(** ** C10 *)

(** The backup of the shop, imported where nothing is stored. *)
Lemma export_import_round_trip_witness :
  ∃ text,
    exportToJSON "2024-05-01T08:00:00.000Z" shop
    = (shown (Alert "Data exported to JSON successfully") shop, Ok text)
    ∧ has_wheels (handleFileImport (Some text) true fresh).1 [wheel1; wheel2]
    ∧ has_sales (handleFileImport (Some text) true fresh).1 [sale1].
Proof.
  apply (export_import_round_trip shop fresh "2024-05-01T08:00:00.000Z"
           (map wheel_json [wheel1; wheel2]) (map sale_json [sale1])).
  - vm_compute. reflexivity.
  - vm_compute. reflexivity.
  - vm_compute. reflexivity.
  - split; vm_compute; reflexivity.
  - split; vm_compute; reflexivity.
Defined.

(** * The rest of the program on the reference platform *)

Import ReferenceText Cases.

(** Nothing is stored under the key of the toggle in the empty storage. *)
Lemma admin_toggle_round_trip_witness :
  getAdminToggle fresh = (fresh, Ok false)
  ∧ getAdminToggle (saveAdminToggle true fresh).1
    = ((saveAdminToggle true fresh).1, Ok true).
Proof.
  destruct (admin_toggle_round_trip (num := number) true fresh) as (Hsaved & _ & _ & Hoff).
  split; [|exact Hsaved]. apply Hoff. vm_compute. reflexivity.
Defined.

(** Of the two wheels of the shop the second one is offered. *)
Lemma available_wheels_are_the_unsold_witness :
  ∃ soldIds,
    getAvailableWheels shop = (shop, Ok [wheel2])
    ∧ getSoldWheelIds shop = (shop, Ok soldIds)
    ∧ "wheel_1700000000000_1" ∈ soldIds.
Proof.
  destruct (available_wheels_are_the_unsold shop [wheel1; wheel2] [sale1])
    as (available & soldIds & Hrun & Hsold & _ & Hids & _).
  - vm_compute. reflexivity.
  - vm_compute. reflexivity.
  - exists soldIds. split; [|split; [exact Hsold|]].
    + rewrite Hrun. f_equal. vm_compute in Hrun. by injection Hrun as <-.
    + apply Hids. apply (bool_decide_unpack _). vm_compute. exact I.
Defined.

(** The second wheel of the shop is sold with [form_wheel2]. *)
Lemma available_wheel_is_sold_witness :
  has_sales (handleSaleSubmit form_wheel2 "sale_1700000000000_2" shop).1
    [sale1; sale_of_form form_wheel2 "sale_1700000000000_2"]
  ∧ has_wheels (handleSaleSubmit form_wheel2 "sale_1700000000000_2" shop).1 [wheel1; wheel2].
Proof.
  destruct (available_wheel_is_sold shop [wheel1; wheel2] [wheel2] [sale1] wheel2
              form_wheel2 "sale_1700000000000_2") as (Hsales & Hwheels & _).
  - vm_compute. reflexivity.
  - vm_compute. reflexivity.
  - vm_compute. reflexivity.
  - constructor.
  - reflexivity.
  - vm_compute. reflexivity.
  - split; vm_compute; reflexivity.
  - split; [exact Hsales | exact Hwheels].
Defined.

(** After that sale no wheel of the shop is offered. *)
Lemma sold_wheel_leaves_the_list_witness :
  getAvailableWheels (handleSaleSubmit form_wheel2 "sale_1700000000000_2" shop).1
  = ((handleSaleSubmit form_wheel2 "sale_1700000000000_2" shop).1, Ok []).
Proof.
  destruct (sold_wheel_leaves_the_list shop [wheel1; wheel2] [sale1] form_wheel2
              "sale_1700000000000_2") as (before & after & Hbefore & Hafter & Heq & _).
  - vm_compute. reflexivity.
  - vm_compute. reflexivity.
  - vm_compute. reflexivity.
  - vm_compute. reflexivity.
  - split; vm_compute; reflexivity.
  - rewrite Heq in Hafter. vm_compute in Hbefore. injection Hbefore as <-.
    exact Hafter.
Defined.

(** The same form, submitted again, is refused. *)
Lemma second_sale_is_refused_witness :
  handleSaleSubmit form_wheel2 "sale_1700000000000_3"
    (handleSaleSubmit form_wheel2 "sale_1700000000000_2" shop).1
  = (shown (Alert "This wheel has already been sold")
       (handleSaleSubmit form_wheel2 "sale_1700000000000_2" shop).1, Ok tt).
Proof.
  apply (second_sale_is_refused shop [sale1] form_wheel2 form_wheel2
           "sale_1700000000000_2" "sale_1700000000000_3").
  - vm_compute. reflexivity.
  - vm_compute. reflexivity.
  - vm_compute. reflexivity.
  - split; vm_compute; reflexivity.
  - vm_compute. reflexivity.
  - reflexivity.
Defined.

(** A new wheel is added to the two wheels of the shop. *)
Lemma add_wheel_appends_witness :
  has_wheels (handleWheelSubmit form_new "wheel_1700000000000_3" "2024-05-01" shop).1
    [wheel1; wheel2; new_wheel form_new "wheel_1700000000000_3" "2024-05-01"]
  ∧ has_sales (handleWheelSubmit form_new "wheel_1700000000000_3" "2024-05-01" shop).1
      [sale1].
Proof.
  destruct (add_wheel_appends form_new "wheel_1700000000000_3" "2024-05-01" shop
              [wheel1; wheel2] [sale1]) as (_ & Hwheels & Hsales).
  - vm_compute. reflexivity.
  - vm_compute. reflexivity.
  - vm_compute. reflexivity.
  - vm_compute. reflexivity.
  - split; vm_compute; reflexivity.
  - split; [exact Hwheels | exact Hsales].
Defined.

(** The second wheel of the shop is edited and repainted. *)
Lemma edit_then_update_witness :
  editWheel "wheel_1700000000000_2" shop
  = (World (localStorage shop) (Some "wheel_1700000000000_2") [], Ok tt)
  ∧ has_sales
      (handleWheelSubmit form_repaint "wheel_1700000000000_3" "2024-05-01"
         (editWheel "wheel_1700000000000_2" shop).1).1
      [sale1]
  ∧ map wheel_id [wheel1; updated_wheel form_repaint wheel2]
    = map wheel_id [wheel1; wheel2].
Proof.
  destruct (edit_then_update "wheel_1700000000000_2" form_repaint
              "wheel_1700000000000_3" "2024-05-01" shop [wheel1; wheel2] [sale1] 1 wheel2)
    as (Hedit & _ & Hsales & _ & Hids & _).
  - vm_compute. reflexivity.
  - vm_compute. reflexivity.
  - vm_compute. reflexivity.
  - vm_compute. reflexivity.
  - reflexivity.
  - vm_compute. reflexivity.
  - split; vm_compute; reflexivity.
  - split; [exact Hedit | split; [exact Hsales | exact Hids]].
Defined.

(** No wheel of the shop has the id ["wheel_gone"]. *)
Lemma edit_absent_wheel_witness :
  editWheel "wheel_gone" shop = (shown (Alert "Wheel not found") shop, Ok tt).
Proof.
  apply (edit_absent_wheel "wheel_gone" shop [wheel1; wheel2]).
  - vm_compute. reflexivity.
  - apply (bool_decide_unpack _). vm_compute. exact I.
Defined.

(** A wheel of the year 1899 and a sale for the price 0 are refused. *)
Lemma invalid_forms_write_nothing_witness :
  (∃ message,
     handleWheelSubmit form_old "wheel_1700000000000_3" "2024-05-01" shop
     = (shown (Alert message) shop, Ok tt))
  ∧ (∃ message,
       handleSaleSubmit form_wheel1_free "wheel_1700000000000_3" shop
       = (shown (Alert message) shop, Ok tt)).
Proof.
  destruct (invalid_forms_write_nothing (num := number) form_old form_wheel1_free
              "wheel_1700000000000_3" "2024-05-01" shop) as (Hwheel & Hsale).
  split.
  - apply Hwheel. vm_compute. reflexivity.
  - apply Hsale. vm_compute. reflexivity.
Defined.

(** The sales of the shop are as they were after a wheel form. *)
Lemma wheel_form_keeps_the_ids_witness :
  localStorage (handleWheelSubmit form_repaint "wheel_1700000000000_3" "2024-05-01" shop).1
    !! "threeWheel_sales"
  = localStorage shop !! "threeWheel_sales".
Proof.
  destruct (wheel_form_keeps_the_ids form_repaint "wheel_1700000000000_3" "2024-05-01"
              shop [wheel1; wheel2]) as (Hsales & _).
  - vm_compute. reflexivity.
  - exact Hsales.
Defined.

(** The second wheel of the shop is not sold, and is deleted. *)
Lemma delete_unsold_wheel_witness :
  has_wheels (deleteWheel "wheel_1700000000000_2" true false shop).1 [wheel1]
  ∧ has_sales (deleteWheel "wheel_1700000000000_2" true false shop).1 [sale1].
Proof.
  destruct (delete_unsold_wheel "wheel_1700000000000_2" false shop [wheel1; wheel2] [sale1])
    as (_ & Hsales & _).
  - vm_compute. reflexivity.
  - vm_compute. reflexivity.
  - apply (bool_decide_unpack _). vm_compute. exact I.
  - split; vm_compute; reflexivity.
  - split; [vm_compute; reflexivity | exact Hsales].
Defined.

(** The sold wheel of the shop is deleted with its sale. *)
Lemma delete_keeps_the_rules_witness :
  ∃ ws' ss',
    has_wheels (deleteWheel "wheel_1700000000000_1" true true shop).1 ws'
    ∧ has_sales (deleteWheel "wheel_1700000000000_1" true true shop).1 ss'
    ∧ one_sale_per_wheel ss'
    ∧ sales_reference_wheels ws' ss'.
Proof.
  apply (delete_keeps_the_rules "wheel_1700000000000_1" true true shop
           [wheel1; wheel2] [sale1]).
  - vm_compute. reflexivity.
  - vm_compute. reflexivity.
  - apply NoDup_singleton.
  - intros sale Hsale. apply list_elem_of_singleton in Hsale as ->.
    apply (bool_decide_unpack _). vm_compute. exact I.
  - split; vm_compute; reflexivity.
  - split; vm_compute; reflexivity.
Defined.

(** The first visit: nothing is stored, the demo data is written. *)
Lemma init_seeds_without_wheels_witness :
  has_wheels (init clock fresh).1 (seed_wheels clock)
  ∧ has_sales (init clock fresh).1 (seed_sales clock).
Proof.
  destruct (init_seeds_without_wheels clock fresh) as (_ & Hwheels & Hsales).
  - vm_compute. reflexivity.
  - split; vm_compute; reflexivity.
  - split; vm_compute; reflexivity.
  - split; [exact Hwheels | exact Hsales].
Defined.

(** A later visit of the shop: nothing is written. *)
Lemma init_keeps_the_wheels_witness :
  init clock shop = (shop, Ok tt).
Proof.
  apply (init_keeps_the_wheels clock shop [wheel1; wheel2] [sale1]).
  - vm_compute. reflexivity.
  - vm_compute. reflexivity.
  - discriminate.
Defined.

(** The demo data is restored over a storage that cannot be read. *)
Lemma reset_restores_the_demo_data_witness :
  has_wheels (resetDemoData true clock broken).1 (seed_wheels clock)
  ∧ has_sales (resetDemoData true clock broken).1 (seed_sales clock)
  ∧ resetDemoData false clock broken
    = (shown
         (Confirm "This will delete all current data and restore demo data. Are you sure?"
            false) broken,
       Ok tt).
Proof.
  destruct (reset_restores_the_demo_data clock broken) as (_ & Hwheels & Hsales & _ & Hno).
  - split; vm_compute; reflexivity.
  - split; vm_compute; reflexivity.
  - split; [exact Hwheels | split; [exact Hsales | exact Hno]].
Defined.

(** The bill of the sale of the shop is stored, and its lists stay. *)
Lemma generate_bill_outcomes_witness :
  generateBill "sale_1700000000000_1" shop = (shop_billed, Ok tt)
  ∧ has_sales (generateBill "sale_1700000000000_1" shop).1 [sale1].
Proof.
  destruct (generate_bill_outcomes "sale_1700000000000_1" shop [wheel1; wheel2] [sale1])
    as (Hbill & _ & Hsales).
  - vm_compute. reflexivity.
  - vm_compute. reflexivity.
  - split; [exact Hbill | exact Hsales].
Defined.

(** The bill of the sale of the second wheel names that sale and that wheel. *)
Lemma bill_of_the_recorded_sale_witness :
  printBill (handleSaleSubmit form_wheel2 "sale_1700000000000_2" shop).1
  = ((handleSaleSubmit form_wheel2 "sale_1700000000000_2" shop).1,
     Ok (Some (sale_of_form form_wheel2 "sale_1700000000000_2", wheel2))).
Proof.
  apply (bill_of_the_recorded_sale shop [wheel1; wheel2] [sale1] form_wheel2
           "sale_1700000000000_2" wheel2).
  - vm_compute. reflexivity.
  - vm_compute. reflexivity.
  - vm_compute. reflexivity.
  - vm_compute. reflexivity.
  - vm_compute. reflexivity.
  - split; vm_compute; reflexivity.
Defined.

(** The bill of the shop outlives its wheel and its sale. *)
Lemma bill_after_the_wheel_is_deleted_witness :
  localStorage (deleteWheel "wheel_1700000000000_1" true true shop_billed).1
    !! "threeWheel_currentSale"
  = Some (stringify (sale_json sale1))
  ∧ printBill (deleteWheel "wheel_1700000000000_1" true true shop_billed).1
    = (shown (Alert "Wheel information not found")
         (deleteWheel "wheel_1700000000000_1" true true shop_billed).1, Ok None).
Proof.
  apply (bill_after_the_wheel_is_deleted "wheel_1700000000000_1" shop_billed
           [wheel1; wheel2] [sale1] (stringify (sale_json sale1)) sale1).
  - vm_compute. reflexivity.
  - vm_compute. reflexivity.
  - vm_compute. reflexivity.
  - split; vm_compute; reflexivity.
  - split; vm_compute; reflexivity.
  - vm_compute. reflexivity.
  - vm_compute. reflexivity.
  - vm_compute. reflexivity.
  - reflexivity.
Defined.


(** The prices of the shop are whole amounts up to 100000, and its two
    sales stay far below 2^53. *)
Lemma total_profit_is_the_sum_witness :
  ∃ rows summary,
    renderReport "" "" shop_dangling = (shop_dangling, Ok (rows, summary))
    ∧ ∀ total, summary = Some total →
        totalProfit total = fold_left nadd (map row_profit rows) (nconst 0).
Proof.
  apply (total_profit_is_the_sum "" "" shop_dangling [wheel1; wheel2]
           [sale1; sale_dangling] 9007199254740992 100000).
  - vm_compute. reflexivity.
  - vm_compute. reflexivity.
  - intros a b _ _. split; intros _; reflexivity.
  - intros sale Hsale.
    apply elem_of_cons in Hsale as [->|Hsale];
      [|apply list_elem_of_singleton in Hsale as ->];
      eexists; (split; [|reflexivity]); lia.
  - intros wheel Hwheel.
    apply elem_of_cons in Hwheel as [->|Hwheel];
      [|apply list_elem_of_singleton in Hwheel as ->];
      eexists; (split; [|reflexivity]); lia.
  - vm_compute. discriminate.
Defined.

(** A report from the end of 2024 to its beginning is empty. *)
Lemma report_of_reversed_bounds_witness :
  renderReport "2024-12-31" "2024-01-01" shop = (shop, Ok ([], None)).
Proof.
  apply (report_of_reversed_bounds "2024-12-31" "2024-01-01" shop [wheel1; wheel2] [sale1]).
  - vm_compute. reflexivity.
  - vm_compute. reflexivity.
  - vm_compute. reflexivity.
  - vm_compute. reflexivity.
Defined.

(** The report of the shop is exported without the purchase prices. *)
Lemma csv_export_of_a_report_witness :
  ∃ rows summary,
    renderReport "" "" shop = (shop, Ok (rows, summary))
    ∧ exportToCSV rows shop
      = match summary with
        | None => (shown (Alert "No data to export") shop, Ok None)
        | Some total =>
            (shown (Alert "Report exported to CSV successfully") shop,
             Ok (Some (csv_header false +:+ csv_lines false rows
                       +:+ csv_summary false total)))
        end.
Proof.
  apply (csv_export_of_a_report "" "" shop [wheel1; wheel2] [sale1] false).
  - vm_compute. reflexivity.
  - vm_compute. reflexivity.
  - vm_compute. reflexivity.
Defined.
